(** * Chole follow-up function: a shallow embedding of [functions/index.js]

    The file has two exported handlers, [askFollowup] (a Firebase callable)
    and [healthCheck] (an HTTP endpoint).  The handlers are embedded as
    functions over an explicit world: the [ai_interactions] collection, the
    calls made to the language-model provider and the operational log.  The
    two external services are oracles of the invocation. *)

From Stdlib Require Import String Ascii.
From Stdlib Require Import List ZArith NArith Bool Lia.
Import ListNotations.

Set Implicit Arguments.
Set Warnings "-register-all".

(* ================================================================== *)
(** ** JavaScript values as the handlers see them *)

Module JS.

(** A JavaScript string is a sequence of UTF-16 code units; [length] is the
    [.length] of the source. *)
Definition jsstring := list N.

(** ASCII literals of the source text. *)
Definition js (s : string) : jsstring :=
  map N_of_ascii (list_ascii_of_string s).

Definition nl : jsstring := [10%N].

Fixpoint jsstring_eqb (a b : jsstring) : bool :=
  match a, b with
  | [], [] => true
  | x :: a', y :: b' => N.eqb x y && jsstring_eqb a' b'
  | _, _ => false
  end.

(** ECMAScript WhiteSpace and LineTerminator code points, the ones
    [String.prototype.trim] strips. *)
Definition is_trim_space (c : N) : bool :=
  ((9 <=? c) && (c <=? 13) || (c =? 32) || (c =? 160) || (c =? 5760)
   || (8192 <=? c) && (c <=? 8202) || (c =? 8232) || (c =? 8233)
   || (c =? 8239) || (c =? 8287) || (c =? 12288) || (c =? 65279))%N.

Fixpoint trimStart (s : jsstring) : jsstring :=
  match s with
  | c :: s' => if is_trim_space c then trimStart s' else s
  | [] => []
  end.

Definition trimEnd (s : jsstring) : jsstring := rev (trimStart (rev s)).

Definition trim (s : jsstring) : jsstring := trimEnd (trimStart s).

(** [Array.prototype.join] on an array of strings. *)
Fixpoint join (sep : jsstring) (parts : list jsstring) : jsstring :=
  match parts with
  | [] => []
  | [p] => p
  | p :: rest => p ++ sep ++ join sep rest
  end.

(** Values that reach a handler: the decoded JSON payload, plus [undefined]
    for what is absent.  A number is kept as its canonical rendering (what
    [Number.prototype.toString] gives): the handlers only test numbers for
    truthiness and interpolate them.  An object is the list of its own
    properties; lookup takes the first binding of a key. *)
Inductive JsVal : Type :=
| VUndefined
| VNull
| VBool (b : bool)
| VNum (repr : jsstring)
| VStr (s : jsstring)
| VArr (elems : list JsVal)
| VObj (props : list (jsstring * JsVal)).

(** Structural induction through the arrays and objects of a value. *)
Section JsVal_induction.
Variable P : JsVal -> Prop.
Hypothesis Hundefined : P VUndefined.
Hypothesis Hnull : P VNull.
Hypothesis Hbool : forall b, P (VBool b).
Hypothesis Hnum : forall r, P (VNum r).
Hypothesis Hstr : forall s, P (VStr s).
Hypothesis Harr : forall elems, Forall P elems -> P (VArr elems).
Hypothesis Hobj :
  forall props, Forall (fun kv => P (snd kv)) props -> P (VObj props).

Fixpoint JsVal_nested_ind (v : JsVal) : P v :=
  match v with
  | VUndefined => Hundefined
  | VNull => Hnull
  | VBool b => Hbool b
  | VNum r => Hnum r
  | VStr s => Hstr s
  | VArr elems =>
      Harr ((fix all (l : list JsVal) : Forall P l :=
               match l with
               | [] => Forall_nil P
               | x :: l' => Forall_cons x (JsVal_nested_ind x) (all l')
               end) elems)
  | VObj props =>
      Hobj ((fix all (l : list (jsstring * JsVal))
               : Forall (fun kv => P (snd kv)) l :=
               match l with
               | [] => Forall_nil _
               | kv :: l' =>
                   Forall_cons kv (JsVal_nested_ind (snd kv)) (all l')
               end) props)
  end.
End JsVal_induction.

(** What can be thrown inside [askFollowup]'s [try] block.  [HttpsError] is
    [functions.https.HttpsError]; the other three are not instances of it. *)
Inductive FunctionsErrorCode := invalid_argument | internal.

Inductive Exn : Type :=
| HttpsError (code : FunctionsErrorCode) (message : jsstring)
| TypeError
| ProviderError (detail : jsstring)
| FirestoreError (detail : jsstring).

Inductive completion (A : Type) : Type :=
| Normal (a : A)
| Throw (e : Exn).
Arguments Normal {A} a.
Arguments Throw {A} e.

Definition cbind {A B} (c : completion A) (k : A -> completion B) : completion B :=
  match c with
  | Normal a => k a
  | Throw e => Throw e
  end.

Declare Scope completion_scope.
Delimit Scope completion_scope with completion.
Notation "x <- c ;; k" := (cbind c (fun x => k))
  (at level 61, c at next level, right associativity) : completion_scope.

Definition truthy (v : JsVal) : bool :=
  match v with
  | VUndefined | VNull => false
  | VBool b => b
  | VNum r => negb (jsstring_eqb r (js "0") || jsstring_eqb r (js "NaN"))
  | VStr s => negb (jsstring_eqb s [])
  | VArr _ | VObj _ => true
  end.

Definition nullish (v : JsVal) : bool :=
  match v with
  | VUndefined | VNull => true
  | _ => false
  end.

Fixpoint own_property (props : list (jsstring * JsVal)) (key : jsstring) : option JsVal :=
  match props with
  | [] => None
  | (k, v) :: rest => if jsstring_eqb k key then Some v else own_property rest key
  end.

(** [v.key] for the keys the handlers read ([articleId], [question],
    [articleContext], [headline], [source], [summary], [bullets], [text]):
    none of them is defined on a built-in prototype, so a primitive or an
    array gives [undefined], and [undefined] and [null] throw. *)
Definition get (v : JsVal) (key : jsstring) : completion JsVal :=
  match v with
  | VUndefined | VNull => Throw TypeError
  | VObj props =>
      match own_property props key with
      | Some x => Normal x
      | None => Normal VUndefined
      end
  | _ => Normal VUndefined
  end.

(** [ToString], as a template literal applies it.  A plain object renders
    through [Object.prototype.toString]; an own [toString] property holds
    decoded JSON, which is not callable, and then neither [toString] nor
    [valueOf] yields a primitive: a TypeError.  An array renders through
    [join(",")], where [undefined] and [null] elements are empty. *)
Fixpoint ToString (v : JsVal) : completion jsstring :=
  match v with
  | VUndefined => Normal (js "undefined")
  | VNull => Normal (js "null")
  | VBool true => Normal (js "true")
  | VBool false => Normal (js "false")
  | VNum r => Normal r
  | VStr s => Normal s
  | VArr elems =>
      let fix each (l : list JsVal) : completion (list jsstring) :=
        match l with
        | [] => Normal []
        | x :: l' =>
            cbind (if nullish x then Normal [] else ToString x) (fun s =>
            cbind (each l') (fun ss => Normal (s :: ss)))
        end in
      cbind (each elems) (fun ss => Normal (join (js ",") ss))
  | VObj props =>
      match own_property props (js "toString") with
      | Some _ => Throw TypeError
      | None => Normal (js "[object Object]")
      end
  end.

End JS.

(* ================================================================== *)
(** ** [askFollowup] *)

Module Followup.
Import JS.
Local Open Scope completion_scope.

(** *** The provider (Anthropic SDK) and the document store (Firestore) *)

Inductive Role := user | assistant.

Record MessageParam := { role : Role; content : jsstring }.

Record MessageCreateParams := {
  model : jsstring;
  max_tokens : Z;
  messages : list MessageParam;
  system : jsstring
}.

(** A content block of the provider's answer; [text] is [undefined] on a
    block that is not a text block. *)
Record ContentBlock := { text : option jsstring }.

(** The provider's answer; [blocks] is its [content] array. *)
Record Message := { blocks : list ContentBlock }.

(** [admin.firestore.FieldValue.serverTimestamp()]: the sentinel the store
    replaces by its own time when it creates the document. *)
Inductive FieldValue := serverTimestamp.

Record InteractionRecord := {
  articleId : JsVal;
  question : JsVal;
  responseLength : nat;
  timestamp : FieldValue;
  userId : jsstring
}.

Record AuthData := { uid : jsstring }.

(** The callable's second argument; [auth] is [undefined] for a caller that
    is not signed in. *)
Record CallableContext := { auth : option AuthData }.

(** The returned object; [response] holds the variable [response] of the
    source, a string or [undefined]. *)
Record FollowupResponse := { success : bool; response : option jsstring }.

(** What the two services do during one invocation: [messages_create]
    resolves with a message or rejects, [add] accepts the document or
    rejects it ([inr] carries the service's own error detail). *)
Record Services := {
  messages_create : MessageCreateParams -> Message + jsstring;
  add : InteractionRecord -> unit + jsstring
}.

(** The world around an invocation: the [ai_interactions] collection, the
    requests sent to the provider, and what [console.error] printed. *)
Record World := {
  ai_interactions : list InteractionRecord;
  sent : list MessageCreateParams;
  console_error : list Exn
}.

Definition with_request (p : MessageCreateParams) (w : World) : World :=
  {| ai_interactions := ai_interactions w;
     sent := sent w ++ [p];
     console_error := console_error w |}.

Definition with_document (doc : InteractionRecord) (w : World) : World :=
  {| ai_interactions := ai_interactions w ++ [doc];
     sent := sent w;
     console_error := console_error w |}.

Definition with_printed (e : Exn) (w : World) : World :=
  {| ai_interactions := ai_interactions w;
     sent := sent w;
     console_error := console_error w ++ [e] |}.

Definition Eff (A : Type) : Type := World -> World * completion A.

Definition ret {A} (a : A) : Eff A := fun w => (w, Normal a).

Definition bind {A B} (m : Eff A) (k : A -> Eff B) : Eff B :=
  fun w =>
    match m w with
    | (w', Normal a) => k a w'
    | (w', Throw e) => (w', Throw e)
    end.

Definition lift {A} (c : completion A) : Eff A := fun w => (w, c).

Declare Scope eff_scope.
Delimit Scope eff_scope with eff.
Notation "x <~ m ;; k" := (bind m (fun x => k))
  (at level 61, m at next level, right associativity) : eff_scope.

(** *** The constants of the source *)

Definition required_message : jsstring := js "Question is required".

Definition too_long_message : jsstring :=
  js "Question too long (max 500 characters)".

Definition failed_message : jsstring := js "Failed to generate response".

Definition placeholder : jsstring := js "No bullet points available".

Definition model_id : jsstring := js "claude-sonnet-4-20250514".

Definition systemPrompt : jsstring :=
  js "You are a senior mining industry analyst assistant for Chole, a mining news platform. " ++ nl ++
  js "You provide expert-level analysis and answers about mining industry news." ++ nl ++
  nl ++
  js "When answering:" ++ nl ++
  js "- Be specific with numbers, companies, and technical details" ++ nl ++
  js "- Provide industry context and implications" ++ nl ++
  js "- Keep responses concise but informative (2-4 paragraphs max)" ++ nl ++
  js "- If you don't know something, say so rather than speculating" ++ nl ++
  js "- Reference specific data points from the article when relevant".

Definition closing_instruction : jsstring :=
  js "Please provide a helpful, expert-level response to this question about the mining news article.".

(** *** The steps of the [try] block *)

(** [const { articleId, question, articleContext } = data]. *)
Definition destructure (data : JsVal) : completion (JsVal * JsVal * JsVal) :=
  a <- get data (js "articleId") ;;
  q <- get data (js "question") ;;
  c <- get data (js "articleContext") ;;
  Normal (a, q, c).

(** The two [if] statements on [question].  A truthy value that is not a
    string has no [trim] method, so the call throws a TypeError; past the
    first test the question is a string, which is returned. *)
Definition validate (question : JsVal) : completion jsstring :=
  if negb (truthy question) then Throw (HttpsError invalid_argument required_message)
  else
    match question with
    | VStr s =>
        if (length (trim s) =? 0)%nat
        then Throw (HttpsError invalid_argument required_message)
        else if (500 <? length s)%nat
        then Throw (HttpsError invalid_argument too_long_message)
        else Normal s
    | _ => Throw TypeError
    end.

(** [b => `- ${b.text}`]. *)
Definition bullet_line (b : JsVal) : completion jsstring :=
  t <- get b (js "text") ;;
  s <- ToString t ;;
  Normal (js "- " ++ s).

Fixpoint map_bullets (bs : list JsVal) : completion (list jsstring) :=
  match bs with
  | [] => Normal []
  | b :: bs' =>
      l <- bullet_line b ;;
      ls <- map_bullets bs' ;;
      Normal (l :: ls)
  end.

(** [articleContext.bullets?.map(...).join('\n') || 'No bullet points
    available'].  [?.] skips [undefined] and [null] only; any other value
    that is not an array has no [map] method. *)
Definition key_points (articleContext : JsVal) : completion jsstring :=
  bullets <- get articleContext (js "bullets") ;;
  match bullets with
  | VUndefined | VNull => Normal placeholder
  | VArr bs =>
      ls <- map_bullets bs ;;
      let joined := join nl ls in
      Normal (if jsstring_eqb joined [] then placeholder else joined)
  | _ => Throw TypeError
  end.

(** The [userPrompt] template literal; [question] is the validated string. *)
Definition userPrompt (articleContext : JsVal) (question : jsstring)
  : completion jsstring :=
  h <- get articleContext (js "headline") ;;
  headline <- ToString h ;;
  s <- get articleContext (js "source") ;;
  source <- ToString s ;;
  m <- get articleContext (js "summary") ;;
  summary <- ToString m ;;
  points <- key_points articleContext ;;
  Normal (js "Article Context:" ++ nl ++
          js "Headline: " ++ headline ++ nl ++
          js "Source: " ++ source ++ nl ++
          js "Summary: " ++ summary ++ nl ++
          js "Key Points:" ++ nl ++
          points ++ nl ++
          nl ++
          js "User Question: " ++ question ++ nl ++
          nl ++
          closing_instruction).

Definition create_params (userPrompt : jsstring) : MessageCreateParams :=
  {| model := model_id;
     max_tokens := 1024;
     messages := [ {| role := user; content := userPrompt |} ];
     system := systemPrompt |}.

(** [await anthropic.messages.create(...)]. *)
Definition call_provider (sv : Services) (p : MessageCreateParams) : Eff Message :=
  fun w =>
    match messages_create sv p with
    | inl m => (with_request p w, Normal m)
    | inr detail => (with_request p w, Throw (ProviderError detail))
    end.

(** [message.content[0].text]: indexing past the end gives [undefined],
    whose [text] throws. *)
Definition first_text (message : Message) : completion (option jsstring) :=
  match blocks message with
  | [] => Throw TypeError
  | b :: _ => Normal (text b)
  end.

(** [response.length]. *)
Definition length_of (response : option jsstring) : completion nat :=
  match response with
  | Some s => Normal (length s)
  | None => Throw TypeError
  end.

(** [context.auth?.uid || 'anonymous']. *)
Definition userId_of (context : CallableContext) : jsstring :=
  match auth context with
  | Some a => if jsstring_eqb (uid a) [] then js "anonymous" else uid a
  | None => js "anonymous"
  end.

(** The object literal passed to [add]. *)
Definition interaction (articleId question : JsVal) (len : nat)
    (context : CallableContext) : InteractionRecord :=
  {| articleId := articleId;
     question := question;
     responseLength := len;
     timestamp := serverTimestamp;
     userId := userId_of context |}.

(** [await db.collection('ai_interactions').add(doc)]. *)
Definition add_interaction (sv : Services) (doc : InteractionRecord) : Eff unit :=
  fun w =>
    match add sv doc with
    | inl _ => (with_document doc w, Normal tt)
    | inr detail => (w, Throw (FirestoreError detail))
    end.

Local Open Scope eff_scope.

Definition try_block (sv : Services) (data : JsVal) (context : CallableContext)
  : Eff FollowupResponse :=
  d <~ lift (destructure data) ;;
  let '(articleId, question, articleContext) := d in
  q <~ lift (validate question) ;;
  prompt <~ lift (userPrompt articleContext q) ;;
  message <~ call_provider sv (create_params prompt) ;;
  response <~ lift (first_text message) ;;
  len <~ lift (length_of response) ;;
  _ <~ add_interaction sv (interaction articleId question len context) ;;
  ret {| success := true; response := response |}.

(** The [catch] clause: print, rethrow an [HttpsError], replace anything
    else by the generic internal error. *)
Definition catch_clause (error : Exn) : Eff FollowupResponse :=
  fun w =>
    match error with
    | HttpsError _ _ => (with_printed error w, Throw error)
    | _ => (with_printed error w, Throw (HttpsError internal failed_message))
    end.

Definition askFollowup (sv : Services) (data : JsVal) (context : CallableContext)
  : Eff FollowupResponse :=
  fun w =>
    match try_block sv data context w with
    | (w', Normal r) => (w', Normal r)
    | (w', Throw e) => catch_clause e w'
    end.

(** *** Successive invocations

    The platform runs the handler once per call, each call with its own
    payload, caller and service behaviour, over the same collection. *)

Record Invocation := {
  services : Services;
  data : JsVal;
  context : CallableContext
}.

Fixpoint serve (calls : list Invocation) (w : World)
  : World * list (completion FollowupResponse) :=
  match calls with
  | [] => (w, [])
  | c :: rest =>
      let '(w1, out) := askFollowup (services c) (data c) (context c) w in
      let '(w2, outs) := serve rest w1 in
      (w2, out :: outs)
  end.

End Followup.

(* ================================================================== *)
(** ** Payloads of the documented shape

    [{articleId, question, articleContext: {headline, source, summary,
    bullets: [{text}]}}], where [None] stands for a property that the
    payload does not have. *)

Module Request.
Import JS.

Record Bullet := { text : option jsstring }.

Record ArticleContext := {
  headline : option jsstring;
  source : option jsstring;
  summary : option jsstring;
  bullets : option (list Bullet)
}.

Record FollowupRequest := {
  articleId : option jsstring;
  question : option jsstring;
  articleContext : option ArticleContext
}.

Definition property (key : string) (v : option JsVal) : list (jsstring * JsVal) :=
  match v with
  | Some x => [(js key, x)]
  | None => []
  end.

Definition encode_bullet (b : Bullet) : JsVal :=
  VObj (property "text" (option_map VStr (text b))).

Definition encode_context (c : ArticleContext) : JsVal :=
  VObj (property "headline" (option_map VStr (headline c)) ++
        property "source" (option_map VStr (source c)) ++
        property "summary" (option_map VStr (summary c)) ++
        property "bullets"
          (option_map (fun bs => VArr (map encode_bullet bs)) (bullets c))).

Definition encode (r : FollowupRequest) : JsVal :=
  VObj (property "articleId" (option_map VStr (articleId r)) ++
        property "question" (option_map VStr (question r)) ++
        property "articleContext" (option_map encode_context (articleContext r))).

(** How an interpolated property reads: the string itself, or the word
    [undefined] when the property is absent. *)
Definition shown (o : option jsstring) : jsstring :=
  match o with
  | Some s => s
  | None => js "undefined"
  end.

(** The prompt as the specification words it: the three article fields, the
    bullets one per line as [- <text>] in input order or the placeholder
    when there is none, the question as given, the closing sentence. *)
Definition bullet_list (c : ArticleContext) : jsstring :=
  match bullets c with
  | None | Some [] => Followup.placeholder
  | Some bs => join nl (map (fun b => js "- " ++ shown (text b)) bs)
  end.

Definition spec_userPrompt (c : ArticleContext) (q : jsstring) : jsstring :=
  js "Article Context:" ++ nl ++
  js "Headline: " ++ shown (headline c) ++ nl ++
  js "Source: " ++ shown (source c) ++ nl ++
  js "Summary: " ++ shown (summary c) ++ nl ++
  js "Key Points:" ++ nl ++
  bullet_list c ++ nl ++ nl ++
  js "User Question: " ++ q ++ nl ++ nl ++
  Followup.closing_instruction.

(** [needle] occurs in [hay]. *)
Definition occurs_in (needle hay : jsstring) : Prop :=
  exists pre post, hay = pre ++ needle ++ post.

(** [l1] and [l2] are whole lines of [hay], [l1] above [l2]. *)
Definition line_before (l1 l2 hay : jsstring) : Prop :=
  exists pre mid post,
    hay = pre ++ nl ++ l1 ++ nl ++ mid ++ l2 ++ nl ++ post /\
    (mid = [] \/ exists mid', mid = mid' ++ nl).

End Request.

(* ================================================================== *)
(** ** [healthCheck] *)

Module Health.
Import JS.
Local Open Scope Z_scope.

(** *** [Date.prototype.toISOString]

    A time value is a whole number of milliseconds since the epoch, at most
    8.64e15 in magnitude; [toISOString] throws a RangeError on any other
    date, which is [None] here.  The calendar follows the definitions of
    the language standard ([Day], [DayFromYear], [InLeapYear], the month
    table). *)

Definition msPerDay : Z := 86400000.

Definition maxTime : Z := 8640000000000000.

Definition Day (t : Z) : Z := t / msPerDay.

Definition TimeWithinDay (t : Z) : Z := t mod msPerDay.

(** The day number of 1 January of year [y]. *)
Definition DayFromYear (y : Z) : Z :=
  365 * (y - 1970) + (y - 1969) / 4 - (y - 1901) / 100 + (y - 1601) / 400.

Definition InLeapYear (y : Z) : Z :=
  if (y mod 4 =? 0) && (negb (y mod 100 =? 0) || (y mod 400 =? 0))
  then 1 else 0.

(** The year of a day: the last year that starts on or before it.  The
    mean year of 365.2425 days is at most one year off. *)
Definition YearFromDay (day : Z) : Z :=
  let y := 1970 + 400 * day / 146097 in
  if DayFromYear (y + 1) <=? day then y + 1
  else if DayFromYear y <=? day then y
  else y - 1.

(** The day of the year on which month [m] starts, January being month 0;
    [leap] is 1 in a leap year. *)
Definition month_start (leap m : Z) : Z :=
  if m <=? 0 then 0
  else if m =? 1 then 31
  else if m =? 2 then 59 + leap
  else if m =? 3 then 90 + leap
  else if m =? 4 then 120 + leap
  else if m =? 5 then 151 + leap
  else if m =? 6 then 181 + leap
  else if m =? 7 then 212 + leap
  else if m =? 8 then 243 + leap
  else if m =? 9 then 273 + leap
  else if m =? 10 then 304 + leap
  else if m =? 11 then 334 + leap
  else 365 + leap.

Definition MonthFromDay (leap dayWithinYear : Z) : Z :=
  if dayWithinYear <? 31 then 0
  else if dayWithinYear <? 59 + leap then 1
  else if dayWithinYear <? 90 + leap then 2
  else if dayWithinYear <? 120 + leap then 3
  else if dayWithinYear <? 151 + leap then 4
  else if dayWithinYear <? 181 + leap then 5
  else if dayWithinYear <? 212 + leap then 6
  else if dayWithinYear <? 243 + leap then 7
  else if dayWithinYear <? 273 + leap then 8
  else if dayWithinYear <? 304 + leap then 9
  else if dayWithinYear <? 334 + leap then 10
  else 11.

(** Year, month (1 to 12) and day of the month of a day number. *)
Definition civil_from_days (day : Z) : Z * Z * Z :=
  let y := YearFromDay day in
  let leap := InLeapYear y in
  let dayWithinYear := day - DayFromYear y in
  let m := MonthFromDay leap dayWithinYear in
  (y, m + 1, dayWithinYear - month_start leap m + 1).

Definition digit (n : Z) : N := Z.to_N (48 + n mod 10).

Definition pad2 (n : Z) : jsstring := [digit (n / 10); digit n].

Definition pad3 (n : Z) : jsstring := digit (n / 100) :: pad2 n.

Definition pad4 (n : Z) : jsstring := digit (n / 1000) :: pad3 n.

Definition pad6 (n : Z) : jsstring :=
  digit (n / 100000) :: digit (n / 10000) :: pad4 n.

(** Four digits for the years 0 to 9999, a sign and six digits otherwise. *)
Definition year_string (y : Z) : jsstring :=
  if (0 <=? y) && (y <=? 9999) then pad4 y
  else (if y <? 0 then js "-" else js "+") ++ pad6 (Z.abs y).

Definition toISOString (t : Z) : option jsstring :=
  if Z.abs t <=? maxTime then
    let '(y, m, d) := civil_from_days (Day t) in
    let ms := TimeWithinDay t in
    Some (year_string y ++ js "-" ++ pad2 m ++ js "-" ++ pad2 d ++ js "T" ++
          pad2 (ms / 3600000) ++ js ":" ++
          pad2 (ms / 60000 mod 60) ++ js ":" ++
          pad2 (ms / 1000 mod 60) ++ js "." ++
          pad3 (ms mod 1000) ++ js "Z")
  else None.

(** *** The handler

    [new Date()] reads the clock; [res.json] sends the object.  The request
    is not read. *)
Record HealthPayload := { status : jsstring; timestamp : jsstring }.

Definition healthCheck {Request : Type} (now : Z) (req : Request)
  : option HealthPayload :=
  match toISOString now with
  | Some ts => Some {| status := js "ok"; timestamp := ts |}
  | None => None
  end.

(** *** Reading a date-time back

    The complete ISO-8601 representation in UTC,
    [YYYY-MM-DDTHH:mm:ss.sssZ] with the expanded year [+YYYYYY] or
    [-YYYYYY] beyond four digits; every field is range-checked, the day
    against the length of its month.  The result is the time value. *)

Definition digit_value (c : N) : option Z :=
  if ((48 <=? c) && (c <=? 57))%N then Some (Z.of_N c - 48) else None.

Fixpoint digits (n : nat) (acc : Z) (s : jsstring) : option (Z * jsstring) :=
  match n with
  | O => Some (acc, s)
  | S n' =>
      match s with
      | c :: s' =>
          match digit_value c with
          | Some v => digits n' (10 * acc + v) s'
          | None => None
          end
      | [] => None
      end
  end.

Definition expect (c : N) (s : jsstring) : option jsstring :=
  match s with
  | c' :: s' => if (c' =? c)%N then Some s' else None
  | [] => None
  end.

Definition read_year (s : jsstring) : option (Z * jsstring) :=
  match s with
  | c :: s' =>
      if (c =? 43)%N then digits 6 0 s'
      else if (c =? 45)%N then
        match digits 6 0 s' with
        | Some (y, r) => if y =? 0 then None else Some (- y, r)
        | None => None
        end
      else digits 4 0 s
  | [] => None
  end.

Definition days_in_month (y m : Z) : Z :=
  month_start (InLeapYear y) m - month_start (InLeapYear y) (m - 1).

Definition days_from_civil (y m d : Z) : Z :=
  DayFromYear y + month_start (InLeapYear y) (m - 1) + d - 1.

Definition guard (b : bool) : option unit := if b then Some tt else None.

Definition obind {A B} (o : option A) (k : A -> option B) : option B :=
  match o with
  | Some a => k a
  | None => None
  end.

Declare Scope opt_scope.
Delimit Scope opt_scope with opt.
Notation "' p <-? o ;; k" := (obind o (fun x => match x with p => k end))
  (at level 61, p pattern, o at next level, right associativity) : opt_scope.
Notation "x <-? o ;; k" := (obind o (fun x => k))
  (at level 61, o at next level, right associativity) : opt_scope.

Definition parse_iso8601 (s : jsstring) : option Z :=
  ('(y, s) <-? read_year s ;;
   s <-? expect 45 s ;;
   '(m, s) <-? digits 2 0 s ;;
   s <-? expect 45 s ;;
   '(d, s) <-? digits 2 0 s ;;
   s <-? expect 84 s ;;
   '(hh, s) <-? digits 2 0 s ;;
   s <-? expect 58 s ;;
   '(mi, s) <-? digits 2 0 s ;;
   s <-? expect 58 s ;;
   '(ss, s) <-? digits 2 0 s ;;
   s <-? expect 46 s ;;
   '(ms, s) <-? digits 3 0 s ;;
   s <-? expect 90 s ;;
   _ <-? guard (match s with [] => true | _ => false end) ;;
   _ <-? guard ((1 <=? m) && (m <=? 12) && (1 <=? d) && (d <=? days_in_month y m)) ;;
   _ <-? guard ((hh <=? 23) && (mi <=? 59) && (ss <=? 59)) ;;
   Some (days_from_civil y m d * msPerDay +
         ((hh * 60 + mi) * 60 + ss) * 1000 + ms))%opt.

Definition valid_iso8601 (s : jsstring) : bool :=
  match parse_iso8601 s with
  | Some _ => true
  | None => false
  end.

End Health.

(* ================================================================== *)
(** ** What a caller and an operator can observe *)

Module Observe.
Import JS Followup.

Definition question_required : Exn := HttpsError invalid_argument required_message.

Definition question_too_long : Exn := HttpsError invalid_argument too_long_message.

Definition generic_failure : Exn := HttpsError internal failed_message.

(** A question that is absent ([undefined]) or otherwise falsy, or a string
    with nothing left after trimming. *)
Definition blank (question : JsVal) : Prop :=
  truthy question = false \/ exists s, question = VStr s /\ trim s = [].

(** The invocation ended in [e], the provider was not called and nothing
    was written. *)
Definition rejected_untouched (e : Exn) (w : World)
    (run : World * completion FollowupResponse) : Prop :=
  snd run = Throw e /\
  sent (fst run) = sent w /\
  ai_interactions (fst run) = ai_interactions w.


End Observe.

(* ================================================================== *)
(** ** Sample payloads, callers and service behaviours *)

Module Examples.
Import JS Followup.

Definition two_bullets : Request.ArticleContext :=
  {| Request.headline := Some (js "Copper output climbs");
     Request.source := Some (js "Mining Weekly");
     Request.summary := Some (js "Quarterly results beat guidance.");
     Request.bullets :=
       Some [ {| Request.text := Some (js "Production up 12%") |};
              {| Request.text := Some (js "New CEO appointed") |} ] |}.

Definition no_bullets : Request.ArticleContext :=
  {| Request.headline := Some (js "Copper output climbs");
     Request.source := Some (js "Mining Weekly");
     Request.summary := Some (js "Quarterly results beat guidance.");
     Request.bullets := None |}.

Definition asking (q : jsstring) (c : option Request.ArticleContext)
  : Request.FollowupRequest :=
  {| Request.articleId := Some (js "article-1");
     Request.question := Some q;
     Request.articleContext := c |}.

Definition why : jsstring := js "What drove the increase?".

(** One letter followed by 500 spaces: 501 code units, 1 after trimming. *)
Definition padded : jsstring := js "a" ++ repeat 32%N 500.

(** 501 spaces: blank, and longer than 500. *)
Definition spaces : jsstring := repeat 32%N 501.

Definition answer : Message :=
  {| blocks := [ {| text := Some (js "Answer text") |} ] |}.

Definition answering : Services :=
  {| messages_create := fun _ => inl answer;
     add := fun _ => inl tt |}.

Definition store_down : Services :=
  {| messages_create := fun _ => inl answer;
     add := fun _ => inr (js "UNAVAILABLE") |}.

Definition provider_down : Services :=
  {| messages_create := fun _ => inr (js "Connection error.");
     add := fun _ => inl tt |}.

Definition signed_in : CallableContext :=
  {| auth := Some {| uid := js "user-42" |} |}.

Definition not_signed_in : CallableContext := {| auth := None |}.

Definition fresh : World :=
  {| ai_interactions := []; sent := []; console_error := [] |}.

End Examples.

(* ================================================================== *)
(** ** Module initialisation

    What the file does when it is loaded, before any handler runs. *)

Module Init.
Import JS.
Local Open Scope completion_scope.

(** [admin.apps] holds the apps created so far, here by name;
    [admin.initializeApp()] creates the default app and throws when the
    default app exists already ([None]). *)
Definition default_app : jsstring := js "[DEFAULT]".

Definition initializeApp (apps : list jsstring) : option (list jsstring) :=
  if existsb (jsstring_eqb default_app) apps then None
  else Some (apps ++ [default_app]).

(** [if (!admin.apps.length) { admin.initializeApp(); }]. *)
Definition ensure_initialized (apps : list jsstring) : option (list jsstring) :=
  if (length apps =? 0)%nat then initializeApp apps else Some apps.

(** [process.env.ANTHROPIC_API_KEY || functions.config().anthropic?.api_key]:
    [env] is the environment variable, [undefined] when it is not set;
    [config] is the object [functions.config()] returns.  Neither
    [anthropic] nor [api_key] is defined on a built-in prototype. *)
Definition apiKey (env : option jsstring) (config : JsVal) : completion JsVal :=
  let fromEnv := match env with Some s => VStr s | None => VUndefined end in
  if truthy fromEnv then Normal fromEnv
  else
    anthropic <- get config (js "anthropic") ;;
    if nullish anthropic then Normal VUndefined
    else get anthropic (js "api_key").

End Init.

(* ================================================================== *)
(** ** More observations and sample payloads *)

Module Probe.
Import JS Followup.

(** Values on which a property read gives [undefined] instead of
    throwing, and which have no own properties: the primitives other than
    [undefined] and [null], and arrays. *)
Definition propertyless (v : JsVal) : Prop :=
  match v with
  | VBool _ | VNum _ | VStr _ | VArr _ => True
  | VUndefined | VNull | VObj _ => False
  end.

(** The requests an invocation added to the provider's trace. *)
Definition well_formed_call (p : MessageCreateParams) : Prop :=
  model p = model_id /\
  max_tokens p = 1024%Z /\
  system p = systemPrompt /\
  exists prompt, messages p = [ {| role := user; content := prompt |} ].

(** The answers among the outcomes of a sequence of invocations. *)
Fixpoint answers (outs : list (completion FollowupResponse)) : nat :=
  match outs with
  | [] => 0
  | Normal _ :: rest => S (answers rest)
  | Throw _ :: rest => answers rest
  end.

Definition is_digit (c : N) : bool := ((48 <=? c) && (c <=? 57))%N.

(** A payload that is an object with the given question and article
    context, and nothing else. *)
Definition payload (question articleContext : JsVal) : JsVal :=
  VObj [ (js "question", question); (js "articleContext", articleContext) ].

Definition article (bullets : JsVal) : JsVal :=
  VObj [ (js "headline", VStr (js "Copper output climbs"));
         (js "bullets", bullets) ].

Definition hello : jsstring := js "What changed?".

Definition text_bullet (t : jsstring) : JsVal := VObj [ (js "text", VStr t) ].

Definition no_blocks : Services :=
  {| messages_create := fun _ => inl {| blocks := [] |};
     add := fun _ => inl tt |}.

Definition tool_block_first : Services :=
  {| messages_create :=
       fun _ => inl {| blocks := [ {| text := None |};
                                   {| text := Some (js "late") |} ] |};
     add := fun _ => inl tt |}.

Definition empty_uid : CallableContext := {| auth := Some {| uid := [] |} |}.

End Probe.

(* ================================================================== *)
(** ** Facts about strings and values *)

Module JSFacts.
Import JS.

Lemma jsstring_eqb_eq (a b : jsstring) : jsstring_eqb a b = true <-> a = b.
Proof.
  revert b; induction a as [|x a IH]; intros [|y b]; simpl;
    try (split; [discriminate | congruence]); try tauto.
  rewrite andb_true_iff, N.eqb_eq, IH.
  split; [intros [-> ->]; reflexivity | intros E; inversion E; auto].
Qed.

Lemma jsstring_eqb_nil (s : jsstring) :
  jsstring_eqb s [] = match s with [] => true | _ => false end.
Proof. destruct s; reflexivity. Qed.

Lemma trimStart_keeps_blankness (s : jsstring) :
  forallb is_trim_space (trimStart s) = forallb is_trim_space s.
Proof.
  induction s as [|c s IH]; simpl; [reflexivity|].
  destruct (is_trim_space c) eqn:E; simpl; [exact IH | now rewrite E].
Qed.

Lemma trimStart_nil_iff (s : jsstring) :
  trimStart s = [] <-> forallb is_trim_space s = true.
Proof.
  induction s as [|c s IH]; simpl; [tauto|].
  destruct (is_trim_space c); simpl; [exact IH | split; discriminate].
Qed.

Lemma forallb_rev {A} (f : A -> bool) (l : list A) :
  forallb f (rev l) = forallb f l.
Proof.
  induction l as [|x l IH]; simpl; [reflexivity|].
  rewrite forallb_app, IH; simpl. rewrite andb_true_r. apply andb_comm.
Qed.

(** Trimming leaves nothing exactly when every code unit is white space or
    a line terminator. *)
Lemma trim_nil_iff (s : jsstring) :
  trim s = [] <-> forallb is_trim_space s = true.
Proof.
  unfold trim, trimEnd.
  rewrite <- (trimStart_keeps_blankness s), <- (forallb_rev _ (trimStart s)).
  rewrite <- trimStart_nil_iff.
  split; intros H.
  - apply (f_equal (@rev N)) in H. now rewrite rev_involutive in H.
  - now rewrite H.
Qed.

Lemma length_trimStart (s : jsstring) : length (trimStart s) <= length s.
Proof.
  induction s as [|c s IH]; simpl; [lia|].
  destruct (is_trim_space c); simpl; lia.
Qed.

Lemma length_trim (s : jsstring) : length (trim s) <= length s.
Proof.
  unfold trim, trimEnd. rewrite length_rev.
  etransitivity; [apply length_trimStart|].
  rewrite length_rev. apply length_trimStart.
Qed.

Lemma length_zero_nil {A} (l : list A) : (length l =? 0)%nat = true <-> l = [].
Proof. destruct l; simpl; split; congruence. Qed.

(** Property lookups throw nothing but a TypeError. *)
Lemma get_throws (v : JsVal) (key : jsstring) (e : Exn) :
  get v key = Throw e -> e = TypeError.
Proof.
  destruct v; simpl; try congruence.
  destruct (own_property props key); congruence.
Qed.

Lemma each_throws (l : list JsVal) :
  Forall (fun v => forall e, ToString v = Throw e -> e = TypeError) l ->
  forall e,
    (fix each (l : list JsVal) : completion (list jsstring) :=
       match l with
       | [] => Normal []
       | x :: l' =>
           cbind (if nullish x then Normal [] else ToString x) (fun s =>
           cbind (each l') (fun ss => Normal (s :: ss)))
       end) l = Throw e -> e = TypeError.
Proof.
  induction 1 as [|x l Hx _ IH]; intros e; [discriminate|].
  destruct (nullish x).
  - simpl. match goal with |- cbind ?c _ = _ -> _ => destruct c eqn:E end;
      simpl; [discriminate | intros [= <-]; eauto].
  - destruct (ToString x) eqn:Ex; simpl.
    + match goal with |- cbind ?c _ = _ -> _ => destruct c eqn:E end;
        simpl; [discriminate | intros [= <-]; eauto].
    + intros [= <-]. eauto.
Qed.

Lemma ToString_throws (v : JsVal) (e : Exn) :
  ToString v = Throw e -> e = TypeError.
Proof.
  revert e. induction v using JsVal_nested_ind; intros e; simpl;
    try discriminate.
  - destruct b; discriminate.
  - match goal with |- cbind ?c _ = _ -> _ => destruct c eqn:E end;
      simpl; [discriminate | intros [= <-]].
    eapply each_throws; eauto.
  - destruct (own_property props (js "toString")); congruence.
Qed.

End JSFacts.

(* ================================================================== *)
(** ** How an invocation of [askFollowup] unfolds *)

Module FollowupFacts.
Import JS JSFacts Followup Observe.

(** The handler, stage by stage: each stage either hands its result to the
    next one or ends in the [catch] clause. *)
Lemma askFollowup_stages sv data context w :
  askFollowup sv data context w =
  match destructure data with
  | Throw e => catch_clause e w
  | Normal (aid, qv, ac) =>
  match validate qv with
  | Throw e => catch_clause e w
  | Normal q =>
  match userPrompt ac q with
  | Throw e => catch_clause e w
  | Normal p =>
  let w1 := with_request (create_params p) w in
  match messages_create sv (create_params p) with
  | inr detail => catch_clause (ProviderError detail) w1
  | inl m =>
  match first_text m with
  | Throw e => catch_clause e w1
  | Normal resp =>
  match length_of resp with
  | Throw e => catch_clause e w1
  | Normal len =>
  match add sv (interaction aid qv len context) with
  | inr detail => catch_clause (FirestoreError detail) w1
  | inl _ =>
      (with_document (interaction aid qv len context) w1,
       Normal {| success := true; response := resp |})
  end end end end end end end.
Proof.
  unfold askFollowup, try_block, bind, lift, ret, call_provider, add_interaction.
  destruct (destructure data) as [[[aid qv] ac]|e]; [|reflexivity].
  destruct (validate qv) as [q|e]; [|reflexivity].
  destruct (userPrompt ac q) as [p|e]; [|reflexivity].
  simpl. destruct (messages_create sv (create_params p)) as [m|d]; [|reflexivity].
  destruct (first_text m) as [resp|e]; [|reflexivity].
  destruct (length_of resp) as [len|e]; [|reflexivity].
  destruct (add sv (interaction aid qv len context)); reflexivity.
Qed.

Lemma catch_TypeError w :
  catch_clause TypeError w = (with_printed TypeError w, Throw generic_failure).
Proof. reflexivity. Qed.

(** The [catch] clause never touches the collection or the provider. *)
Lemma catch_clause_world e w :
  ai_interactions (fst (catch_clause e w)) = ai_interactions w /\
  sent (fst (catch_clause e w)) = sent w /\
  console_error (fst (catch_clause e w)) = console_error w ++ [e].
Proof. destruct e; simpl; auto. Qed.

Lemma catch_clause_throws e w :
  exists e', snd (catch_clause e w) = Throw e'.
Proof. destruct e; simpl; eauto. Qed.

Lemma catch_clause_generic e w :
  (forall c m, e <> HttpsError c m) ->
  catch_clause e w = (with_printed e w, Throw generic_failure).
Proof. destruct e; intros H; try reflexivity. now elim (H code message). Qed.

(** Destructuring throws on a [null] or [undefined] payload only. *)
Lemma destructure_get data aid qv ac :
  destructure data = Normal (aid, qv, ac) <->
  get data (js "articleId") = Normal aid /\
  get data (js "question") = Normal qv /\
  get data (js "articleContext") = Normal ac.
Proof.
  unfold destructure, cbind.
  destruct (get data (js "articleId"));
    [|split; [discriminate|intros [? _]; discriminate]].
  destruct (get data (js "question"));
    [|split; [discriminate|intros [_ [? _]]; discriminate]].
  destruct (get data (js "articleContext"));
    [|split; [discriminate|intros [_ [_ ?]]; discriminate]].
  split; [intros [= -> -> ->]; auto | intros [[= ->] [[= ->] [= ->]]]; reflexivity].
Qed.

Lemma get_total data key v key' :
  get data key = Normal v -> exists v', get data key' = Normal v'.
Proof.
  destruct data; simpl; try discriminate; eauto.
  destruct (own_property props key'); eauto.
Qed.

Lemma destructure_question data qv :
  get data (js "question") = Normal qv ->
  exists aid ac, destructure data = Normal (aid, qv, ac).
Proof.
  intros H.
  destruct (get_total _ _ (js "articleId") H) as [aid Ha].
  destruct (get_total _ _ (js "articleContext") H) as [ac Hc].
  exists aid, ac. apply destructure_get. auto.
Qed.

Lemma destructure_throws data e : destructure data = Throw e -> e = TypeError.
Proof.
  unfold destructure, cbind.
  destruct (get data (js "articleId")) eqn:E1;
    [|intros [= <-]; eapply get_throws; eauto].
  destruct (get data (js "question")) eqn:E2;
    [|intros [= <-]; eapply get_throws; eauto].
  destruct (get data (js "articleContext")) eqn:E3;
    [discriminate|intros [= <-]; eapply get_throws; eauto].
Qed.

(** What [validate] lets through: a string, returned as it came, with
    something left after trimming and at most 500 code units. *)
Lemma validate_Normal qv q :
  validate qv = Normal q <->
  qv = VStr q /\ trim q <> [] /\ length q <= 500.
Proof.
  unfold validate. split.
  - destruct (truthy qv) eqn:T; simpl; [|discriminate].
    destruct qv; try discriminate.
    destruct (length (trim s) =? 0)%nat eqn:E; [discriminate|].
    destruct (500 <? length s)%nat eqn:L; [discriminate|].
    intros [= ->]. apply Nat.ltb_ge in L. repeat split; auto.
    intros Hn. rewrite Hn in E. discriminate.
  - intros (-> & Hn & Hl). simpl.
    destruct q as [|c q]; [now elim Hn|]. simpl negb. cbv iota.
    destruct (length (trim (c :: q)) =? 0)%nat eqn:E.
    + apply length_zero_nil in E. contradiction.
    + destruct (500 <? length (c :: q))%nat eqn:L; [|reflexivity].
      apply Nat.ltb_lt in L. lia.
Qed.

Lemma validate_blank qv :
  truthy qv = false \/ (exists s, qv = VStr s /\ trim s = []) ->
  validate qv = Throw (HttpsError invalid_argument required_message).
Proof.
  unfold validate. intros [T | (s & -> & Hs)].
  - now rewrite T.
  - destruct (truthy (VStr s)); simpl; [|reflexivity].
    now rewrite Hs.
Qed.

Lemma validate_too_long s :
  trim s <> [] -> 500 < length s ->
  validate (VStr s) = Throw (HttpsError invalid_argument too_long_message).
Proof.
  intros Hn Hl. unfold validate.
  destruct s as [|c s]; [now elim Hn|]. simpl negb. cbv iota.
  destruct (length (trim (c :: s)) =? 0)%nat eqn:E.
  - apply length_zero_nil in E. contradiction.
  - apply Nat.ltb_lt in Hl. now rewrite Hl.
Qed.

(** [validate] throws one of its two errors, or a TypeError on a truthy
    value that is not a string. *)
Lemma validate_throws qv e :
  validate qv = Throw e ->
  e = HttpsError invalid_argument required_message \/
  e = HttpsError invalid_argument too_long_message \/
  e = TypeError /\ truthy qv = true /\ forall s, qv <> VStr s.
Proof.
  unfold validate. destruct (truthy qv) eqn:T; simpl; [|intros [= <-]; auto].
  destruct qv; try (intros [= <-]; right; right; repeat split; congruence).
  destruct (length (trim s) =? 0)%nat; [intros [= <-]; auto|].
  destruct (500 <? length s)%nat; [intros [= <-]; auto | discriminate].
Qed.

Lemma bullet_line_throws b e : bullet_line b = Throw e -> e = TypeError.
Proof.
  unfold bullet_line, cbind.
  destruct (get b (js "text")) eqn:G;
    [|intros [= <-]; eapply get_throws; eauto].
  destruct (ToString a) eqn:T;
    [discriminate|intros [= <-]; eapply ToString_throws; eauto].
Qed.

Lemma map_bullets_throws bs e : map_bullets bs = Throw e -> e = TypeError.
Proof.
  induction bs as [|b bs IH]; simpl; [discriminate|]. unfold cbind.
  destruct (bullet_line b) eqn:B;
    [|intros [= <-]; eapply bullet_line_throws; eauto].
  destruct (map_bullets bs); [discriminate|intros [= <-]; auto].
Qed.

Lemma key_points_throws ac e : key_points ac = Throw e -> e = TypeError.
Proof.
  unfold key_points, cbind.
  destruct (get ac (js "bullets")) as [v|e'] eqn:G;
    [|intros [= <-]; eapply get_throws; eauto].
  destruct v; try discriminate; try (intros [= <-]; reflexivity).
  destruct (map_bullets elems) eqn:M; [discriminate|].
  intros [= <-]. eapply map_bullets_throws; eauto.
Qed.

(** Composing the prompt throws nothing but a TypeError. *)
Lemma userPrompt_throws ac q e : userPrompt ac q = Throw e -> e = TypeError.
Proof.
  unfold userPrompt, cbind.
  repeat match goal with
  | |- match match ?c with Normal _ => _ | Throw _ => _ end with _ => _ end = _ -> _ =>
      let E := fresh "E" in destruct c eqn:E
  | |- match ?c with Normal _ => _ | Throw _ => _ end = _ -> _ =>
      let E := fresh "E" in destruct c eqn:E
  end; try discriminate; intros [= <-];
  eauto using get_throws, ToString_throws, key_points_throws.
Qed.

(** *** Payloads of the documented shape *)

Lemma get_headline c :
  get (Request.encode_context c) (js "headline") =
  Normal (match Request.headline c with Some s => VStr s | None => VUndefined end).
Proof. destruct c as [[h|] [s|] [m|] [b|]]; reflexivity. Qed.

Lemma get_source c :
  get (Request.encode_context c) (js "source") =
  Normal (match Request.source c with Some s => VStr s | None => VUndefined end).
Proof. destruct c as [[h|] [s|] [m|] [b|]]; reflexivity. Qed.

Lemma get_summary c :
  get (Request.encode_context c) (js "summary") =
  Normal (match Request.summary c with Some s => VStr s | None => VUndefined end).
Proof. destruct c as [[h|] [s|] [m|] [b|]]; reflexivity. Qed.

Lemma get_bullets c :
  get (Request.encode_context c) (js "bullets") =
  Normal (match Request.bullets c with
          | Some bs => VArr (map Request.encode_bullet bs)
          | None => VUndefined
          end).
Proof. destruct c as [[h|] [s|] [m|] [b|]]; reflexivity. Qed.

Lemma ToString_shown (o : option jsstring) :
  ToString (match o with Some s => VStr s | None => VUndefined end) =
  Normal (Request.shown o).
Proof. destruct o; reflexivity. Qed.

Lemma bullet_line_encode b :
  bullet_line (Request.encode_bullet b) =
  Normal (js "- " ++ Request.shown (Request.text b)).
Proof. destruct b as [[t|]]; reflexivity. Qed.

Lemma map_bullets_encode bs :
  map_bullets (map Request.encode_bullet bs) =
  Normal (map (fun b => js "- " ++ Request.shown (Request.text b)) bs).
Proof.
  induction bs as [|b bs IH]; simpl; [reflexivity|].
  now rewrite bullet_line_encode, IH.
Qed.

Lemma join_dash_not_empty (l : jsstring) (ls : list jsstring) :
  jsstring_eqb (join nl ((js "- " ++ l) :: ls)) [] = false.
Proof. destruct ls; reflexivity. Qed.

Lemma key_points_encode c :
  key_points (Request.encode_context c) = Normal (Request.bullet_list c).
Proof.
  unfold key_points, Request.bullet_list. rewrite get_bullets.
  destruct (Request.bullets c) as [[|b bs]|]; try reflexivity.
  unfold cbind at 1. cbv beta iota.
  rewrite map_bullets_encode. unfold cbind. cbv beta iota.
  change (map ?f (b :: bs)) with (f b :: map f bs). cbv beta.
  now rewrite join_dash_not_empty.
Qed.

(** On a payload of the documented shape the template literal yields the
    prompt that the specification words. *)
Lemma userPrompt_encode c q :
  userPrompt (Request.encode_context c) q = Normal (Request.spec_userPrompt c q).
Proof.
  unfold userPrompt.
  rewrite get_headline, get_source, get_summary, key_points_encode. simpl cbind.
  rewrite !ToString_shown. simpl cbind. reflexivity.
Qed.

Lemma destructure_encode r :
  destructure (Request.encode r) =
  Normal (match Request.articleId r with Some s => VStr s | None => VUndefined end,
          match Request.question r with Some s => VStr s | None => VUndefined end,
          match Request.articleContext r with
          | Some c => Request.encode_context c
          | None => VUndefined
          end).
Proof. destruct r as [[a|] [q|] [c|]]; reflexivity. Qed.

(** Past validation the caller sees an answer or the generic failure. *)
Lemma after_validation sv data context w aid qv ac q :
  destructure data = Normal (aid, qv, ac) ->
  validate qv = Normal q ->
  (exists r, snd (askFollowup sv data context w) = Normal r) \/
  snd (askFollowup sv data context w) = Throw generic_failure.
Proof.
  intros Hd Hv. rewrite askFollowup_stages, Hd, Hv.
  destruct (userPrompt ac q) as [p|e] eqn:Hp.
  - cbv zeta. destruct (messages_create sv (create_params p)) as [m|d];
      [|right; reflexivity].
    destruct (first_text m) as [resp|e] eqn:Hf.
    + destruct resp as [t|]; simpl length_of; cbv iota; [|right; reflexivity].
      destruct (add sv _); [left; eexists; reflexivity | right; reflexivity].
    + right. destruct m as [[|b bl]]; simpl in Hf; [|discriminate].
      injection Hf as <-. reflexivity.
  - right. apply userPrompt_throws in Hp. subst e. reflexivity.
Qed.

(** An answer is returned only after every stage has succeeded. *)
Lemma askFollowup_returns sv data context w r :
  snd (askFollowup sv data context w) = Normal r ->
  exists aid qv ac q p m b rest t,
    destructure data = Normal (aid, qv, ac) /\
    validate qv = Normal q /\
    userPrompt ac q = Normal p /\
    messages_create sv (create_params p) = inl m /\
    blocks m = b :: rest /\ text b = Some t /\
    add sv (interaction aid qv (length t) context) = inl tt /\
    askFollowup sv data context w =
      (with_document (interaction aid qv (length t) context)
         (with_request (create_params p) w),
       Normal {| success := true; response := Some t |}).
Proof.
  rewrite askFollowup_stages.
  destruct (destructure data) as [[[aid qv] ac]|e] eqn:Hd;
    [|destruct (catch_clause_throws e w) as [e' ->]; discriminate].
  destruct (validate qv) as [q|e] eqn:Hv;
    [|destruct (catch_clause_throws e w) as [e' ->]; discriminate].
  destruct (userPrompt ac q) as [p|e] eqn:Hp;
    [|destruct (catch_clause_throws e w) as [e' ->]; discriminate].
  cbv zeta.
  destruct (messages_create sv (create_params p)) as [m|d] eqn:Hm;
    [|simpl; discriminate].
  destruct m as [[|b rest]]; [simpl; discriminate|].
  cbn [first_text blocks].
  destruct (text b) as [t|] eqn:Ht; [|simpl; discriminate].
  cbn [length_of].
  destruct (add sv (interaction aid qv (length t) context)) as [[]|d] eqn:Ha;
    [|simpl; discriminate].
  intros _. exists aid, qv, ac, q, p, {| blocks := b :: rest |}, b, rest, t.
  repeat split; auto.
Qed.

(** The run of an invocation whose every stage succeeds. *)
Lemma askFollowup_all_stages sv data context w aid qv ac q p m b rest t :
  destructure data = Normal (aid, qv, ac) ->
  validate qv = Normal q ->
  userPrompt ac q = Normal p ->
  messages_create sv (create_params p) = inl m ->
  blocks m = b :: rest -> text b = Some t ->
  add sv (interaction aid qv (length t) context) = inl tt ->
  askFollowup sv data context w =
    (with_document (interaction aid qv (length t) context)
       (with_request (create_params p) w),
     Normal {| success := true; response := Some t |}).
Proof.
  intros Hd Hv Hp Hm Hb Ht Ha.
  rewrite askFollowup_stages, Hd, Hv, Hp. cbv zeta. rewrite Hm.
  unfold first_text. rewrite Hb, Ht. simpl length_of. cbv iota.
  now rewrite Ha.
Qed.


(** The run of an invocation whose log write rejects. *)
Lemma askFollowup_write_rejects sv data context w aid qv ac q p m b rest t detail :
  destructure data = Normal (aid, qv, ac) ->
  validate qv = Normal q ->
  userPrompt ac q = Normal p ->
  messages_create sv (create_params p) = inl m ->
  blocks m = b :: rest -> text b = Some t ->
  add sv (interaction aid qv (length t) context) = inr detail ->
  askFollowup sv data context w =
    (with_printed (FirestoreError detail) (with_request (create_params p) w),
     Throw generic_failure).
Proof.
  intros Hd Hv Hp Hm Hb Ht Ha.
  rewrite askFollowup_stages, Hd, Hv, Hp. cbv zeta. rewrite Hm.
  unfold first_text. rewrite Hb, Ht. simpl length_of. cbv iota.
  now rewrite Ha.
Qed.

(** The run of an invocation that stops in validation. *)
Lemma askFollowup_validation_throws sv data context w aid qv ac e :
  destructure data = Normal (aid, qv, ac) ->
  validate qv = Throw e ->
  askFollowup sv data context w = catch_clause e w.
Proof. intros Hd Hv. now rewrite askFollowup_stages, Hd, Hv. Qed.

(** An invocation that ends in an error leaves the collection as it was. *)
Lemma thrown_writes_nothing sv data context w e :
  snd (askFollowup sv data context w) = Throw e ->
  ai_interactions (fst (askFollowup sv data context w)) = ai_interactions w.
Proof.
  rewrite askFollowup_stages.
  repeat match goal with
  | |- context [match ?c with Normal _ => _ | Throw _ => _ end] => destruct c
  | |- context [let '(_, _) := ?c in _] => destruct c
  | |- context [match ?c with inl _ => _ | inr _ => _ end] => destruct c
  | |- context [match ?c with (_, _) => _ end] => destruct c
  end; cbv zeta; try discriminate; intros _;
  match goal with
  | |- context [catch_clause ?e ?w] =>
      rewrite (proj1 (catch_clause_world e w)); reflexivity
  end.
Qed.

Lemma serve_cons c rest w :
  fst (serve (c :: rest) w) =
    fst (serve rest (fst (askFollowup (services c) (data c) (context c) w))) /\
  snd (serve (c :: rest) w) =
    snd (askFollowup (services c) (data c) (context c) w) ::
    snd (serve rest (fst (askFollowup (services c) (data c) (context c) w))).
Proof.
  simpl. destruct (askFollowup (services c) (data c) (context c) w) as [w1 out].
  simpl. destruct (serve rest w1); auto.
Qed.

(** Every error that reaches the caller is one of the two validation
    errors, as [validate] threw it, or the generic failure. *)
Lemma thrown_classified sv data context w e :
  snd (askFollowup sv data context w) = Throw e ->
  (exists aid qv ac,
      destructure data = Normal (aid, qv, ac) /\ validate qv = Throw e /\
      (e = question_required \/ e = question_too_long)) \/
  e = generic_failure.
Proof.
  intros H.
  destruct (destructure data) as [[[aid qv] ac]|e0] eqn:Hd.
  - destruct (validate qv) as [q|e0] eqn:Hv.
    + right. destruct (after_validation sv data context w Hd Hv) as [[r Hr]|Hr];
        rewrite Hr in H; [discriminate | now injection H as <-].
    + rewrite (askFollowup_validation_throws sv data context w Hd Hv) in H.
      destruct (validate_throws _ Hv) as [->|[->|[-> _]]];
        simpl in H; injection H as <-; auto;
        left; exists aid, qv, ac; auto.
  - rewrite askFollowup_stages, Hd in H.
    apply destructure_throws in Hd. subst e0. simpl in H.
    right. now injection H as <-.
Qed.

(** A payload of the documented shape with a valid question and an article
    context reaches the provider, with the prompt the specification words. *)
Lemma askFollowup_sends_spec_prompt sv r c s context w :
  Request.articleContext r = Some c ->
  Request.question r = Some s ->
  validate (VStr s) = Normal s ->
  sent (fst (askFollowup sv (Request.encode r) context w)) =
    sent w ++ [create_params (Request.spec_userPrompt c s)].
Proof.
  intros Hc Hq Hv.
  rewrite askFollowup_stages, destructure_encode, Hc, Hq, Hv, userPrompt_encode.
  cbv zeta.
  destruct (messages_create sv _) as [m|d]; [|reflexivity].
  destruct (first_text m) as [[t|]|e]; cbn [length_of];
    try (destruct e; reflexivity); try reflexivity.
  destruct (add sv _); reflexivity.
Qed.

Lemma occurs_in_middle (pre needle post : jsstring) :
  Request.occurs_in needle (pre ++ needle ++ post).
Proof. now exists pre, post. Qed.

End FollowupFacts.

(* ================================================================== *)
(** ** The contract of [askFollowup] *)

Module FollowupSpec.
Import JS JSFacts Followup Observe FollowupFacts Examples.
Unset Implicit Arguments.

(** C2 — Validation fails fast and in order.  A payload whose question is
    absent (or otherwise falsy) or is a string that trims to nothing is
    rejected with INVALID_ARGUMENT, [Question is required], whatever its
    length; otherwise a question of more than 500 code units is rejected
    with INVALID_ARGUMENT, [Question too long (max 500 characters)].  In
    both cases the provider is not called and no record is written. *)
Theorem validation_fails_fast sv data context w qv :
  get data (js "question") = Normal qv ->
  (blank qv ->
   rejected_untouched question_required w (askFollowup sv data context w)) /\
  (forall s, qv = VStr s -> trim s <> [] -> 500 < length s ->
   rejected_untouched question_too_long w (askFollowup sv data context w)).
Proof.
  intros Hq. destruct (destructure_question _ Hq) as (aid & ac & Hd). split.
  - intros Hb.
    rewrite (askFollowup_validation_throws sv data context w Hd (validate_blank Hb)).
    repeat split.
  - intros s -> Hn Hl.
    rewrite (askFollowup_validation_throws sv data context w Hd
               (validate_too_long s Hn Hl)).
    repeat split.
Qed.

Lemma validation_fails_fast_witness :
  rejected_untouched question_required fresh
    (askFollowup answering (Request.encode (asking spaces (Some two_bullets)))
       signed_in fresh) /\
  rejected_untouched question_too_long fresh
    (askFollowup answering (Request.encode (asking padded (Some two_bullets)))
       signed_in fresh).
Proof.
  split.
  - apply (proj1 (validation_fails_fast answering
                    (Request.encode (asking spaces (Some two_bullets)))
                    signed_in fresh (VStr spaces) eq_refl)).
    right. exists spaces. split; [reflexivity | vm_compute; reflexivity].
  - apply (proj2 (validation_fails_fast answering
                    (Request.encode (asking padded (Some two_bullets)))
                    signed_in fresh (VStr padded) eq_refl) padded eq_refl).
    + vm_compute. discriminate.
    + vm_compute. apply le_n.
Defined.

(** C7, as the code has it — The bound of 500 is on the question as sent,
    not on what trimming leaves: a question with something left after
    trimming and at most 500 code units before trimming passes validation,
    so neither of the two validation errors reaches the caller. *)
Theorem validation_measures_untrimmed_length sv data context w s :
  get data (js "question") = Normal (VStr s) ->
  trim s <> [] ->
  length s <= 500 ->
  validate (VStr s) = Normal s /\
  1 <= length (trim s) <= 500 /\
  snd (askFollowup sv data context w) <> Throw question_required /\
  snd (askFollowup sv data context w) <> Throw question_too_long.
Proof.
  intros Hq Hn Hl.
  assert (Hv : validate (VStr s) = Normal s) by (apply validate_Normal; auto).
  destruct (destructure_question _ Hq) as (aid & ac & Hd).
  split; [exact Hv|]. split.
  - pose proof (length_trim s). destruct (trim s); [now elim Hn|simpl in *; lia].
  - destruct (after_validation sv data context w Hd Hv) as [[r ->] | ->];
      split; discriminate.
Qed.

Lemma validation_measures_untrimmed_length_witness :
  validate (VStr why) = Normal why /\
  1 <= length (trim why) <= 500 /\
  snd (askFollowup answering (Request.encode (asking why (Some two_bullets)))
         signed_in fresh) <> Throw question_required /\
  snd (askFollowup answering (Request.encode (asking why (Some two_bullets)))
         signed_in fresh) <> Throw question_too_long.
Proof.
  apply (validation_measures_untrimmed_length answering
           (Request.encode (asking why (Some two_bullets))) signed_in fresh why).
  - reflexivity.
  - vm_compute. discriminate.
  - vm_compute. repeat constructor.
Defined.

(** C7 does not hold as the specification words it: one letter followed
    by 500 spaces is 1 code unit long after trimming, within 1 to 500, and
    is rejected as too long. *)
Lemma trimmed_length_within_bounds_rejected :
  1 <= length (trim padded) <= 500 /\
  validate (VStr padded) = Throw question_too_long /\
  snd (askFollowup answering (Request.encode (asking padded (Some two_bullets)))
         signed_in fresh) = Throw question_too_long.
Proof.
  split; [|split].
  - vm_compute. split; [apply le_n | repeat constructor].
  - vm_compute. reflexivity.
  - vm_compute. reflexivity.
Qed.



(** C9 — The response waits for the log write.  Whenever the caller
    receives an answer, the record of that answer is already in the
    collection: the store accepted it, and its [responseLength] is the
    length of the returned text.  And when the store rejects the write, a
    successful provider call notwithstanding, the caller receives the
    generic INTERNAL error, which carries no response text, and the
    collection is as it was. *)
Theorem response_waits_for_the_write sv data context w :
  (forall r,
      snd (askFollowup sv data context w) = Normal r ->
      exists doc t,
        ai_interactions (fst (askFollowup sv data context w)) =
          ai_interactions w ++ [doc] /\
        add sv doc = inl tt /\
        r = {| success := true; response := Some t |} /\
        responseLength doc = length t) /\
  (forall aid qv ac q p m b rest t detail,
      destructure data = Normal (aid, qv, ac) ->
      validate qv = Normal q ->
      userPrompt ac q = Normal p ->
      messages_create sv (create_params p) = inl m ->
      blocks m = b :: rest -> text b = Some t ->
      add sv (interaction aid qv (length t) context) = inr detail ->
      snd (askFollowup sv data context w) = Throw generic_failure /\
      ai_interactions (fst (askFollowup sv data context w)) = ai_interactions w).
Proof.
  split.
  - intros r Hr.
    destruct (askFollowup_returns sv data context w Hr)
      as (aid & qv & ac & q & p & m & b & rest & t & _ & _ & _ & _ & _ & _ & Ha & E).
    rewrite E in Hr |- *. simpl in Hr. injection Hr as <-.
    exists (interaction aid qv (length t) context), t. repeat split; auto.
  - intros aid qv ac q p m b rest t detail Hd Hv Hp Hm Hb Ht Ha.
    rewrite (askFollowup_write_rejects sv data context w Hd Hv Hp Hm Hb Ht Ha).
    split; reflexivity.
Qed.

Lemma response_waits_for_the_write_witness :
  snd (askFollowup store_down (Request.encode (asking why (Some two_bullets)))
         signed_in fresh) = Throw generic_failure /\
  ai_interactions
    (fst (askFollowup store_down
            (Request.encode (asking why (Some two_bullets))) signed_in fresh)) = [].
Proof.
  apply (proj2 (response_waits_for_the_write store_down
                  (Request.encode (asking why (Some two_bullets))) signed_in fresh)
           (VStr (js "article-1")) (VStr why) (Request.encode_context two_bullets)
           why (Request.spec_userPrompt two_bullets why) answer
           {| text := Some (js "Answer text") |} [] (js "Answer text")
           (js "UNAVAILABLE")).
  - reflexivity.
  - vm_compute. reflexivity.
  - vm_compute. reflexivity.
  - reflexivity.
  - reflexivity.
  - reflexivity.
  - reflexivity.
Defined.

(** C1, as the code has it — When a payload passes validation, the
    provider call succeeds with a first content block whose text is [t],
    and the store accepts the record of this call, [askFollowup] returns
    [{success: true, response: t}] and appends exactly one record: the
    payload's [articleId] and question, [responseLength] the length of [t],
    the server-timestamp sentinel, and as [userId] the caller's uid when
    the caller is signed in with a non-empty uid, [anonymous] when there is
    no auth context. *)
Theorem askFollowup_success sv data context w aid qv ac q p m b rest t :
  destructure data = Normal (aid, qv, ac) ->
  validate qv = Normal q ->
  userPrompt ac q = Normal p ->
  messages_create sv (create_params p) = inl m ->
  blocks m = b :: rest ->
  text b = Some t ->
  add sv (interaction aid qv (length t) context) = inl tt ->
  exists doc,
    snd (askFollowup sv data context w) =
      Normal {| success := true; response := Some t |} /\
    ai_interactions (fst (askFollowup sv data context w)) =
      ai_interactions w ++ [doc] /\
    articleId doc = aid /\
    question doc = VStr q /\
    responseLength doc = length t /\
    timestamp doc = serverTimestamp /\
    (auth context = None -> userId doc = js "anonymous") /\
    (forall a, auth context = Some a -> uid a <> [] -> userId doc = uid a).
Proof.
  intros Hd Hv Hp Hm Hb Ht Ha.
  exists (interaction aid qv (length t) context).
  rewrite (askFollowup_all_stages sv data context w Hd Hv Hp Hm Hb Ht Ha).
  apply validate_Normal in Hv. destruct Hv as (-> & _ & _).
  repeat split; simpl; unfold userId_of.
  - now intros ->.
  - intros a -> Hu. destruct (uid a); [now elim Hu | reflexivity].
Qed.

Lemma askFollowup_success_witness :
  exists doc,
    snd (askFollowup answering (Request.encode (asking why (Some two_bullets)))
           signed_in fresh) =
      Normal {| success := true; response := Some (js "Answer text") |} /\
    ai_interactions
      (fst (askFollowup answering
              (Request.encode (asking why (Some two_bullets))) signed_in fresh)) =
      ai_interactions fresh ++ [doc] /\
    articleId doc = VStr (js "article-1") /\
    question doc = VStr why /\
    responseLength doc = length (js "Answer text") /\
    timestamp doc = serverTimestamp /\
    (auth signed_in = None -> userId doc = js "anonymous") /\
    (forall a, auth signed_in = Some a -> uid a <> [] -> userId doc = uid a).
Proof.
  apply (askFollowup_success answering
           (Request.encode (asking why (Some two_bullets))) signed_in fresh
           (VStr (js "article-1")) (VStr why) (Request.encode_context two_bullets)
           why (Request.spec_userPrompt two_bullets why) answer
           {| text := Some (js "Answer text") |} [] (js "Answer text")).
  - reflexivity.
  - vm_compute. reflexivity.
  - vm_compute. reflexivity.
  - reflexivity.
  - reflexivity.
  - reflexivity.
  - reflexivity.
Defined.

(** C1 does not hold as the specification words it: the payload passes
    validation and the provider answers, but the store rejects the write;
    the caller receives the generic error and no record is appended. *)
Lemma provider_success_is_not_enough :
  validate (VStr why) = Normal why /\
  messages_create store_down
    (create_params (Request.spec_userPrompt two_bullets why)) = inl answer /\
  askFollowup store_down (Request.encode (asking why (Some two_bullets)))
    signed_in fresh =
    (with_printed (FirestoreError (js "UNAVAILABLE"))
       (with_request
          (create_params (Request.spec_userPrompt two_bullets why)) fresh),
     Throw generic_failure) /\
  ai_interactions
    (fst (askFollowup store_down
            (Request.encode (asking why (Some two_bullets))) signed_in fresh)) = [].
Proof. repeat split; vm_compute; reflexivity. Qed.

(** C6, as the code has it — When the provider answers a valid request
    with content [[{text: "Answer text"}]] and the store accepts the record
    of this call,
    [askFollowup] returns [{success: true, response: "Answer text"}] and
    appends exactly one record, whose [responseLength] is 11. *)
Theorem answer_text_is_logged_with_length_11 sv data context w aid qv ac q p :
  destructure data = Normal (aid, qv, ac) ->
  validate qv = Normal q ->
  userPrompt ac q = Normal p ->
  messages_create sv (create_params p) =
    inl {| blocks := [ {| text := Some (js "Answer text") |} ] |} ->
  add sv (interaction aid qv (length (js "Answer text")) context) = inl tt ->
  exists doc,
    snd (askFollowup sv data context w) =
      Normal {| success := true; response := Some (js "Answer text") |} /\
    ai_interactions (fst (askFollowup sv data context w)) =
      ai_interactions w ++ [doc] /\
    responseLength doc = 11.
Proof.
  intros Hd Hv Hp Hm Ha.
  exists (interaction aid qv 11 context).
  rewrite (askFollowup_all_stages sv data context w (t := js "Answer text")
             Hd Hv Hp Hm eq_refl eq_refl Ha).
  repeat split.
Qed.

Lemma answer_text_is_logged_with_length_11_witness :
  exists doc,
    snd (askFollowup answering (Request.encode (asking why (Some two_bullets)))
           not_signed_in fresh) =
      Normal {| success := true; response := Some (js "Answer text") |} /\
    ai_interactions
      (fst (askFollowup answering
              (Request.encode (asking why (Some two_bullets)))
              not_signed_in fresh)) =
      ai_interactions fresh ++ [doc] /\
    responseLength doc = 11.
Proof.
  apply (answer_text_is_logged_with_length_11 answering
           (Request.encode (asking why (Some two_bullets))) not_signed_in fresh
           (VStr (js "article-1")) (VStr why) (Request.encode_context two_bullets)
           why (Request.spec_userPrompt two_bullets why)).
  - reflexivity.
  - vm_compute. reflexivity.
  - vm_compute. reflexivity.
  - reflexivity.
  - reflexivity.
Defined.

(** C6 does not hold as the specification words it: the answer
    [Answer text] is returned and one record is written, with
    [responseLength] 11, not 12. *)
Lemma answer_text_is_not_12_long :
  snd (askFollowup answering (Request.encode (asking why (Some two_bullets)))
         signed_in fresh) =
    Normal {| success := true; response := Some (js "Answer text") |} /\
  map responseLength
    (ai_interactions
       (fst (askFollowup answering
               (Request.encode (asking why (Some two_bullets)))
               signed_in fresh))) = [11] /\
  11 <> 12.
Proof. repeat split; try (vm_compute; reflexivity). discriminate. Qed.

(** C5, as the code has it — For a payload that passes validation and
    whose prompt composes to [p], the provider is called exactly once, with
    the model
    [claude-sonnet-4-20250514], [max_tokens] 1024, the fixed system prompt
    and the single user message [p].  Any answer the handler returns is the
    text of the first content block of the provider's message, and it does
    return that text once the store has accepted the record. *)
Theorem provider_invocation sv data context w aid qv ac q p :
  destructure data = Normal (aid, qv, ac) ->
  validate qv = Normal q ->
  userPrompt ac q = Normal p ->
  sent (fst (askFollowup sv data context w)) =
    sent w ++ [ {| model := js "claude-sonnet-4-20250514";
                   max_tokens := 1024;
                   messages := [ {| role := user; content := p |} ];
                   system := systemPrompt |} ] /\
  (forall r,
      snd (askFollowup sv data context w) = Normal r ->
      exists m b rest t,
        messages_create sv (create_params p) = inl m /\
        blocks m = b :: rest /\ text b = Some t /\
        r = {| success := true; response := Some t |}) /\
  (forall m b rest t,
      messages_create sv (create_params p) = inl m ->
      blocks m = b :: rest -> text b = Some t ->
      (forall doc, add sv doc = inl tt) ->
      snd (askFollowup sv data context w) =
        Normal {| success := true; response := Some t |}).
Proof.
  intros Hd Hv Hp. split; [|split].
  - rewrite askFollowup_stages, Hd, Hv, Hp. cbv zeta.
    destruct (messages_create sv (create_params p)) as [m|d]; [|reflexivity].
    destruct (first_text m) as [[t|]|e]; cbn [length_of];
      try (destruct e; reflexivity); try reflexivity.
    destruct (add sv _); reflexivity.
  - intros r Hr.
    destruct (askFollowup_returns sv data context w Hr)
      as (aid' & qv' & ac' & q' & p' & m & b & rest & t
          & Hd' & Hv' & Hp' & Hm & Hb & Ht & _ & E).
    rewrite Hd in Hd'. injection Hd' as <- <- <-.
    rewrite Hv in Hv'. injection Hv' as <-.
    rewrite Hp in Hp'. injection Hp' as <-.
    exists m, b, rest, t. repeat split; auto.
    rewrite E in Hr. simpl in Hr. now injection Hr as <-.
  - intros m b rest t Hm Hb Ht Ha.
    now rewrite (askFollowup_all_stages sv data context w
                   Hd Hv Hp Hm Hb Ht (Ha _)).
Qed.

Lemma provider_invocation_witness :
  sent (fst (askFollowup provider_down
               (Request.encode (asking why (Some no_bullets))) signed_in fresh)) =
    sent fresh ++
    [ {| model := js "claude-sonnet-4-20250514";
         max_tokens := 1024;
         messages := [ {| role := user;
                          content := Request.spec_userPrompt no_bullets why |} ];
         system := systemPrompt |} ].
Proof.
  apply (provider_invocation provider_down
           (Request.encode (asking why (Some no_bullets))) signed_in fresh
           (VStr (js "article-1")) (VStr why) (Request.encode_context no_bullets)
           why (Request.spec_userPrompt no_bullets why)).
  - reflexivity.
  - vm_compute. reflexivity.
  - vm_compute. reflexivity.
Defined.

(** C5 does not hold as the specification words it: a payload with a valid
    question and no [articleContext] passes validation, and the provider is
    not called at all. *)
Lemma valid_question_without_context_calls_nobody :
  validate (VStr why) = Normal why /\
  sent (fst (askFollowup answering (Request.encode (asking why None))
               signed_in fresh)) = [] /\
  snd (askFollowup answering (Request.encode (asking why None))
         signed_in fresh) = Throw generic_failure.
Proof. repeat split; vm_compute; reflexivity. Qed.

(** C4 — The user prompt is a function of the article context and the
    question: on a payload of the documented shape it is the text
    [Article Context:], the headline, source and summary lines, the line
    [Key Points:], the bullets one per line as [- <text>] in input order
    (the placeholder [No bullet points available] when there are none), the
    question as it was sent, and the closing instruction.  With the bullets
    [Production up 12%] and [New CEO appointed] the first line stands
    directly above the second; with the bullets absent the prompt has the
    placeholder; and the question reaches the provider untrimmed. *)
Theorem userPrompt_composition :
  (forall c q,
      userPrompt (Request.encode_context c) q =
        Normal (Request.spec_userPrompt c q)) /\
  (forall h s m q,
      exists p,
        userPrompt
          (Request.encode_context
             {| Request.headline := h; Request.source := s;
                Request.summary := m;
                Request.bullets :=
                  Some [ {| Request.text := Some (js "Production up 12%") |};
                         {| Request.text := Some (js "New CEO appointed") |} ] |})
          q = Normal p /\
        Request.line_before
          (js "- Production up 12%") (js "- New CEO appointed") p) /\
  (forall c q,
      Request.bullets c = None ->
      exists p,
        userPrompt (Request.encode_context c) q = Normal p /\
        Request.occurs_in placeholder p) /\
  (forall c q,
      exists pre,
        Request.spec_userPrompt c q =
          pre ++ js "User Question: " ++ q ++ nl ++ nl ++ closing_instruction) /\
  (forall sv r c s context w,
      Request.articleContext r = Some c ->
      Request.question r = Some s ->
      validate (VStr s) = Normal s ->
      sent (fst (askFollowup sv (Request.encode r) context w)) =
        sent w ++ [create_params (Request.spec_userPrompt c s)]).
Proof.
  split; [exact userPrompt_encode|].
  split.
  { intros h s m q. eexists. split; [apply userPrompt_encode|].
    exists (js "Article Context:" ++ nl ++
            js "Headline: " ++ Request.shown h ++ nl ++
            js "Source: " ++ Request.shown s ++ nl ++
            js "Summary: " ++ Request.shown m ++ nl ++
            js "Key Points:"),
           [],
           (nl ++ js "User Question: " ++ q ++ nl ++ nl ++ closing_instruction).
    split; [|now left].
    unfold Request.spec_userPrompt, Request.bullet_list.
    cbn [Request.headline Request.source Request.summary Request.bullets
         Request.text Request.shown map join].
    repeat rewrite <- app_assoc. reflexivity. }
  split.
  { intros c q Hb. eexists. split; [apply userPrompt_encode|].
    unfold Request.spec_userPrompt, Request.bullet_list. rewrite Hb.
    exists (js "Article Context:" ++ nl ++
            js "Headline: " ++ Request.shown (Request.headline c) ++ nl ++
            js "Source: " ++ Request.shown (Request.source c) ++ nl ++
            js "Summary: " ++ Request.shown (Request.summary c) ++ nl ++
            js "Key Points:" ++ nl),
           (nl ++ nl ++ js "User Question: " ++ q ++ nl ++ nl ++
            closing_instruction).
    repeat rewrite <- app_assoc. reflexivity. }
  split.
  { intros c q.
    exists (js "Article Context:" ++ nl ++
            js "Headline: " ++ Request.shown (Request.headline c) ++ nl ++
            js "Source: " ++ Request.shown (Request.source c) ++ nl ++
            js "Summary: " ++ Request.shown (Request.summary c) ++ nl ++
            js "Key Points:" ++ nl ++ Request.bullet_list c ++ nl ++ nl).
    unfold Request.spec_userPrompt.
    repeat rewrite <- app_assoc. reflexivity. }
  exact askFollowup_sends_spec_prompt.
Qed.

Lemma userPrompt_composition_witness :
  sent (fst (askFollowup answering
               (Request.encode (asking why (Some two_bullets)))
               signed_in fresh)) =
    sent fresh ++ [create_params (Request.spec_userPrompt two_bullets why)].
Proof.
  apply (proj2 (proj2 (proj2 (proj2 userPrompt_composition)))
           answering (asking why (Some two_bullets)) two_bullets why
           signed_in fresh).
  - reflexivity.
  - reflexivity.
  - vm_compute. reflexivity.
Defined.

(** C8, as the code has it — For a payload that passes question validation
    and has an article context, prompt composition never fails, whichever
    of the nested properties are absent: an absent headline, source,
    summary or bullet text reads [undefined], absent bullets read
    [No bullet points available], and the handler goes on to call the
    provider. *)
Theorem composition_degrades_gracefully sv r c s context w :
  Request.articleContext r = Some c ->
  Request.question r = Some s ->
  trim s <> [] ->
  length s <= 500 ->
  userPrompt (Request.encode_context c) s =
    Normal (Request.spec_userPrompt c s) /\
  sent (fst (askFollowup sv (Request.encode r) context w)) =
    sent w ++ [create_params (Request.spec_userPrompt c s)] /\
  (Request.headline c = None ->
   Request.occurs_in (js "Headline: undefined") (Request.spec_userPrompt c s)) /\
  (Request.source c = None ->
   Request.occurs_in (js "Source: undefined") (Request.spec_userPrompt c s)) /\
  (Request.summary c = None ->
   Request.occurs_in (js "Summary: undefined") (Request.spec_userPrompt c s)) /\
  (Request.bullets c = None ->
   Request.occurs_in (js "No bullet points available")
     (Request.spec_userPrompt c s)).
Proof.
  intros Hc Hq Hn Hl.
  assert (Hv : validate (VStr s) = Normal s) by (apply validate_Normal; auto).
  split; [apply userPrompt_encode|].
  split; [now apply askFollowup_sends_spec_prompt|].
  unfold Request.spec_userPrompt, Request.bullet_list.
  repeat split; intros ->; cbn [Request.shown].
  - exists (js "Article Context:" ++ nl). eexists.
    repeat rewrite <- app_assoc. reflexivity.
  - exists (js "Article Context:" ++ nl ++
            js "Headline: " ++ Request.shown (Request.headline c) ++ nl).
    eexists. repeat rewrite <- app_assoc. reflexivity.
  - exists (js "Article Context:" ++ nl ++
            js "Headline: " ++ Request.shown (Request.headline c) ++ nl ++
            js "Source: " ++ Request.shown (Request.source c) ++ nl).
    eexists. repeat rewrite <- app_assoc. reflexivity.
  - exists (js "Article Context:" ++ nl ++
            js "Headline: " ++ Request.shown (Request.headline c) ++ nl ++
            js "Source: " ++ Request.shown (Request.source c) ++ nl ++
            js "Summary: " ++ Request.shown (Request.summary c) ++ nl ++
            js "Key Points:" ++ nl).
    eexists. repeat rewrite <- app_assoc. reflexivity.
Qed.

Lemma composition_degrades_gracefully_witness :
  userPrompt (Request.encode_context no_bullets) why =
    Normal (Request.spec_userPrompt no_bullets why) /\
  sent (fst (askFollowup answering
               (Request.encode (asking why (Some no_bullets)))
               not_signed_in fresh)) =
    sent fresh ++ [create_params (Request.spec_userPrompt no_bullets why)].
Proof.
  assert (Hn : trim why <> []) by (vm_compute; discriminate).
  assert (Hl : length why <= 500) by (vm_compute; repeat constructor).
  destruct (composition_degrades_gracefully answering
              (asking why (Some no_bullets)) no_bullets why not_signed_in fresh
              eq_refl eq_refl Hn Hl) as (A & B & _).
  split; assumption.
Defined.

(** C8 does not hold as the specification words it: a payload with a
    valid question and no [articleContext] passes validation, composing the
    prompt throws, and the caller receives the generic error before any
    provider call. *)
Lemma absent_articleContext_is_an_error :
  validate (VStr why) = Normal why /\
  userPrompt VUndefined why = Throw TypeError /\
  askFollowup answering (Request.encode (asking why None)) signed_in fresh =
    (with_printed TypeError fresh, Throw generic_failure).
Proof. repeat split; vm_compute; reflexivity. Qed.

End FollowupSpec.

(* ================================================================== *)
(** ** Facts about the calendar and the date-time text *)

Module HealthFacts.
Import JS Health.
Local Open Scope Z_scope.
Unset Implicit Arguments.

(** Goals about quotients and remainders by constants. *)
Ltac divmod := Z.div_mod_to_equations; lia.

Ltac decide_eqb E := rewrite ?Z.eqb_eq, ?Z.eqb_neq in E.

(** *** Years *)

Lemma InLeapYear_cases y : InLeapYear y = 0 \/ InLeapYear y = 1.
Proof. unfold InLeapYear. destruct (_ && _); auto. Qed.

Lemma leap_step_4 y :
  (y + 1 - 1969) / 4 = (y - 1969) / 4 + (if y mod 4 =? 0 then 1 else 0).
Proof. destruct (y mod 4 =? 0) eqn:E; decide_eqb E; divmod. Qed.

Lemma leap_step_100 y :
  (y + 1 - 1901) / 100 = (y - 1901) / 100 + (if y mod 100 =? 0 then 1 else 0).
Proof. destruct (y mod 100 =? 0) eqn:E; decide_eqb E; divmod. Qed.

Lemma leap_step_400 y :
  (y + 1 - 1601) / 400 = (y - 1601) / 400 + (if y mod 400 =? 0 then 1 else 0).
Proof. destruct (y mod 400 =? 0) eqn:E; decide_eqb E; divmod. Qed.

Lemma mod_100_4 y : y mod 100 = 0 -> y mod 4 = 0.
Proof. intros. divmod. Qed.

Lemma mod_400_100 y : y mod 400 = 0 -> y mod 100 = 0.
Proof. intros. divmod. Qed.

(** A year has 365 days, or 366 when it is a leap year. *)
Lemma DayFromYear_succ y :
  DayFromYear (y + 1) = DayFromYear y + 365 + InLeapYear y.
Proof.
  unfold DayFromYear, InLeapYear.
  rewrite leap_step_4, leap_step_100, leap_step_400.
  destruct (y mod 4 =? 0) eqn:E4; destruct (y mod 100 =? 0) eqn:E100;
    destruct (y mod 400 =? 0) eqn:E400; cbn [andb orb negb]; try lia;
    decide_eqb E4; decide_eqb E100; decide_eqb E400.
  all: try (apply mod_400_100 in E400; congruence).
  all: try (apply mod_100_4 in E100; congruence).
Qed.

(** [YearFromDay] is the year the day falls in. *)
Lemma year_bracket day :
  DayFromYear (YearFromDay day) <= day < DayFromYear (YearFromDay day + 1).
Proof.
  unfold YearFromDay.
  set (y := 1970 + 400 * day / 146097).
  assert (Hlo : DayFromYear (y - 1) <= day) by (unfold DayFromYear, y; divmod).
  assert (Hhi : day < DayFromYear (y + 2)) by (unfold DayFromYear, y; divmod).
  pose proof (DayFromYear_succ (y - 1)) as S0.
  pose proof (DayFromYear_succ y) as S1.
  pose proof (DayFromYear_succ (y + 1)) as S2.
  replace (y - 1 + 1) with y in S0 by lia.
  replace (y + 1 + 1) with (y + 2) in S2 by lia.
  pose proof (InLeapYear_cases (y - 1)).
  pose proof (InLeapYear_cases y).
  pose proof (InLeapYear_cases (y + 1)).
  destruct (DayFromYear (y + 1) <=? day) eqn:E1.
  - apply Z.leb_le in E1. replace (y + 1 + 1) with (y + 2) by lia. lia.
  - apply Z.leb_gt in E1. destruct (DayFromYear y <=? day) eqn:E0.
    + apply Z.leb_le in E0. lia.
    + apply Z.leb_gt in E0. replace (y - 1 + 1) with y by lia. lia.
Qed.

Lemma day_within_year day :
  0 <= day - DayFromYear (YearFromDay day)
    < 365 + InLeapYear (YearFromDay day).
Proof.
  pose proof (year_bracket day).
  pose proof (DayFromYear_succ (YearFromDay day)). lia.
Qed.

(** The time values span the years -271821 to 275760, within six digits. *)
Lemma year_bound t :
  - maxTime <= t <= maxTime ->
  -999999 <= YearFromDay (Day t) <= 999999.
Proof.
  unfold maxTime, Day, msPerDay. intros H.
  assert (-100000000 <= t / 86400000 <= 100000000) by divmod.
  set (day := t / 86400000) in *. clearbody day.
  unfold YearFromDay.
  assert (-273791 <= 400 * day / 146097 <= 273791) by divmod.
  repeat match goal with
  | |- context [if ?a <=? ?b then _ else _] => destruct (a <=? b)
  end; lia.
Qed.

(** *** Months and days *)

(** The date of a day number is a date of the calendar, and the day number
    is recovered from it. *)
Lemma civil_from_days_spec day :
  let '(y, m, d) := civil_from_days day in
  y = YearFromDay day /\
  1 <= m <= 12 /\
  1 <= d <= days_in_month y m /\
  d <= 31 /\
  days_from_civil y m d = day.
Proof.
  unfold civil_from_days, days_in_month, days_from_civil.
  pose proof (day_within_year day) as H.
  set (y := YearFromDay day) in *.
  set (dwy := day - DayFromYear y) in *.
  assert (E : day = DayFromYear y + dwy) by (unfold dwy; lia).
  clearbody dwy.
  destruct (InLeapYear_cases y) as [L|L]; rewrite L in *;
    unfold MonthFromDay;
    repeat match goal with
    | |- context [if ?a <? ?b then _ else _] => destruct (Z.ltb_spec a b)
    end; cbn; lia.
Qed.

(** *** Digits *)

Lemma digit_range n : (48 <= digit n <= 57)%N.
Proof.
  unfold digit. pose proof (Z.mod_pos_bound n 10 ltac:(lia)). lia.
Qed.

Lemma digit_value_digit n : digit_value (digit n) = Some (n mod 10).
Proof.
  unfold digit_value. pose proof (digit_range n) as [H1 H2].
  apply N.leb_le in H1, H2. rewrite H1, H2. simpl. f_equal.
  unfold digit. pose proof (Z.mod_pos_bound n 10 ltac:(lia)). lia.
Qed.

Lemma digits_digit k acc n s :
  digits (S k) acc (digit n :: s) = digits k (10 * acc + n mod 10) s.
Proof. simpl. now rewrite digit_value_digit. Qed.

(** A padded number reads back as itself. *)
Ltac read_padded :=
  cbn [app]; rewrite !digits_digit; cbn [digits]; do 2 f_equal; divmod.

Lemma digits_pad2 n rest :
  0 <= n < 100 -> digits 2 0 (pad2 n ++ rest) = Some (n, rest).
Proof. intros H. unfold pad2. read_padded. Qed.

Lemma digits_pad3 n rest :
  0 <= n < 1000 -> digits 3 0 (pad3 n ++ rest) = Some (n, rest).
Proof. intros H. unfold pad3, pad2. read_padded. Qed.

Lemma digits_pad4 n rest :
  0 <= n < 10000 -> digits 4 0 (pad4 n ++ rest) = Some (n, rest).
Proof. intros H. unfold pad4, pad3, pad2. read_padded. Qed.

Lemma digits_pad6 n rest :
  0 <= n < 1000000 -> digits 6 0 (pad6 n ++ rest) = Some (n, rest).
Proof. intros H. unfold pad6, pad4, pad3, pad2. read_padded. Qed.

Lemma read_year_string y rest :
  -999999 <= y <= 999999 ->
  read_year (year_string y ++ rest) = Some (y, rest).
Proof.
  intros H. unfold year_string.
  destruct (Z.leb_spec 0 y) as [H0|H0]; cbn [andb].
  - destruct (Z.leb_spec y 9999) as [H1|H1].
    + unfold read_year. pose proof (digits_pad4 y rest ltac:(lia)) as D.
      unfold pad4 in *. cbn [app] in *.
      pose proof (digit_range (y / 1000)) as [R1 R2].
      destruct (N.eqb_spec (digit (y / 1000)) 43); [lia|].
      destruct (N.eqb_spec (digit (y / 1000)) 45); [lia|]. exact D.
    + destruct (Z.ltb_spec y 0); [lia|].
      change (js "+") with [43%N]. cbn [app read_year N.eqb Pos.eqb].
      rewrite Z.abs_eq by lia. apply digits_pad6. lia.
  - destruct (Z.ltb_spec y 0); [|lia].
    change (js "-") with [45%N]. cbn [app read_year N.eqb Pos.eqb].
    rewrite Z.abs_neq by lia. rewrite digits_pad6 by lia.
    destruct (Z.eqb_spec (- y) 0); [lia|]. do 2 f_equal. lia.
Qed.

Lemma expect_head c s : expect c (c :: s) = Some s.
Proof. simpl. now rewrite N.eqb_refl. Qed.

(** *** The text of a time value *)

(** One field of the text and the separator after it. *)
Ltac read_field lem :=
  rewrite lem by (lia || divmod); cbn [obind];
  rewrite expect_head; cbn [obind guard].

(** Every time value is printed, and the printed text reads back as the
    same time value. *)
Lemma toISOString_parses t :
  - maxTime <= t <= maxTime ->
  exists ts, toISOString t = Some ts /\ parse_iso8601 ts = Some t.
Proof.
  intros H. unfold toISOString.
  assert (A : (Z.abs t <=? maxTime) = true) by (apply Z.leb_le; lia).
  rewrite A.
  pose proof (civil_from_days_spec (Day t)) as C.
  pose proof (year_bound t H) as Y.
  destruct (civil_from_days (Day t)) as [[y m] d].
  destruct C as (-> & Hm & Hd & Hd31 & Hday).
  eexists. split; [reflexivity|].
  assert (Hms : 0 <= TimeWithinDay t < 86400000)
    by (unfold TimeWithinDay, msPerDay; apply Z.mod_pos_bound; lia).
  assert (Ht : t = Day t * msPerDay + TimeWithinDay t)
    by (unfold Day, TimeWithinDay, msPerDay; divmod).
  set (ms := TimeWithinDay t) in *. clearbody ms.
  set (y := YearFromDay (Day t)) in *. clearbody y.
  unfold parse_iso8601.
  change (js "-") with [45%N]. change (js "T") with [84%N].
  change (js ":") with [58%N]. change (js ".") with [46%N].
  change (js "Z") with [90%N]. cbn [app].
  rewrite read_year_string by assumption. cbn [obind].
  rewrite expect_head. cbn [obind].
  do 5 read_field digits_pad2. read_field digits_pad3.
  assert (G1 : ((1 <=? m) && (m <=? 12) && (1 <=? d)
                && (d <=? days_in_month y m)) = true).
  { rewrite !andb_true_iff, !Z.leb_le. lia. }
  rewrite G1. cbn [obind guard].
  assert (G2 : ((ms / 3600000 <=? 23) && (ms / 60000 mod 60 <=? 59) &&
                (ms / 1000 mod 60 <=? 59)) = true).
  { rewrite !andb_true_iff, !Z.leb_le. divmod. }
  rewrite G2. cbn [obind guard].
  f_equal. rewrite Hday. set (D := Day t) in *. clearbody D.
  unfold msPerDay in *.
  change 3600000 with (1000 * 60 * 60). change 60000 with (1000 * 60).
  rewrite <- !Z.div_div by lia.
  divmod.
Qed.

End HealthFacts.

(* ================================================================== *)
(** ** The contract of [healthCheck] *)

Module HealthSpec.
Import JS Health HealthFacts.
Local Open Scope Z_scope.
Unset Implicit Arguments.

(** C10 — Whatever the request, and with nothing remembered from earlier
    invocations, [healthCheck] sends a payload whose [status] is exactly
    [ok] and whose [timestamp] is a valid ISO-8601 date-time in UTC, the
    one that reads back as the clock's time; it never throws.  The clock
    gives a time value, at most 8.64e15 ms from the epoch. *)
Theorem healthCheck_always_ok (Request : Type) (now : Z) (req : Request) :
  - maxTime <= now <= maxTime ->
  exists ts,
    healthCheck now req = Some {| status := js "ok"; timestamp := ts |} /\
    valid_iso8601 ts = true /\
    parse_iso8601 ts = Some now.
Proof.
  intros H. destruct (toISOString_parses now H) as (ts & E & P).
  exists ts. unfold healthCheck, valid_iso8601. rewrite E, P. auto.
Qed.

Lemma healthCheck_always_ok_witness :
  exists ts,
    healthCheck 1700000000000 tt = Some {| status := js "ok"; timestamp := ts |} /\
    valid_iso8601 ts = true /\
    parse_iso8601 ts = Some 1700000000000.
Proof.
  apply (healthCheck_always_ok unit 1700000000000 tt).
  unfold maxTime. lia.
Defined.

End HealthSpec.

(* ================================================================== *)
(** ** Further behaviour of [askFollowup] *)

Module FollowupExtra.
Import JS JSFacts Followup Observe FollowupFacts Examples Probe.
Unset Implicit Arguments.

(** *** How an invocation can end *)

(** Every invocation ends in one of three ways: before the provider call,
    in the [catch] clause; after the provider call, with the generic
    failure; or with an answer, after the store accepted the record. *)
Lemma run_cases sv data context w :
  (exists cause,
      askFollowup sv data context w = catch_clause cause w /\
      (cause = TypeError \/ cause = question_required \/
       cause = question_too_long)) \/
  (exists aid qv ac q p,
      destructure data = Normal (aid, qv, ac) /\
      validate qv = Normal q /\
      userPrompt ac q = Normal p /\
      ((exists cause,
           askFollowup sv data context w =
             (with_printed cause (with_request (create_params p) w),
              Throw generic_failure) /\
           forall c m, cause <> HttpsError c m) \/
       (exists t,
           add sv (interaction aid qv (length t) context) = inl tt /\
           askFollowup sv data context w =
             (with_document (interaction aid qv (length t) context)
                (with_request (create_params p) w),
              Normal {| success := true; response := Some t |})))).
Proof.
  rewrite askFollowup_stages.
  destruct (destructure data) as [[[aid qv] ac]|e] eqn:Hd.
  2:{ left. exists e. apply destructure_throws in Hd. auto. }
  destruct (validate qv) as [q|e] eqn:Hv.
  2:{ left. exists e. split; [reflexivity|].
      destruct (validate_throws _ Hv) as [->|[->|[-> _]]]; auto. }
  destruct (userPrompt ac q) as [p|e] eqn:Hp.
  2:{ left. exists e. apply userPrompt_throws in Hp. auto. }
  right. exists aid, qv, ac, q, p.
  do 3 (split; [solve [auto]|]). cbv zeta.
  destruct (messages_create sv (create_params p)) as [[[|b rest]]|d].
  - left. exists TypeError. split; [reflexivity|discriminate].
  - cbn [first_text blocks]. destruct (text b) as [t|]; cbn [length_of].
    + destruct (add sv (interaction aid qv (length t) context)) as [[]|d] eqn:Ha.
      * right. exists t. auto.
      * left. exists (FirestoreError d). split; [reflexivity|discriminate].
    + left. exists TypeError. split; [reflexivity|discriminate].
  - left. exists (ProviderError d). split; [reflexivity|discriminate].
Qed.

Lemma askFollowup_prompt_throws sv data context w aid qv ac q e :
  destructure data = Normal (aid, qv, ac) ->
  validate qv = Normal q ->
  userPrompt ac q = Throw e ->
  askFollowup sv data context w = (with_printed TypeError w, Throw generic_failure).
Proof.
  intros Hd Hv Hp. rewrite askFollowup_stages, Hd, Hv, Hp.
  apply userPrompt_throws in Hp. now subst e.
Qed.

Lemma key_points_throw_userPrompt ac q e :
  key_points ac = Throw e -> exists e', userPrompt ac q = Throw e'.
Proof.
  intros H. unfold userPrompt, cbind. rewrite H.
  repeat match goal with
  | |- exists _, match ?c with Normal _ => _ | Throw _ => _ end = _ =>
      destruct c
  end; eauto.
Qed.

(** *** Payloads the handler cannot read *)

(** X1 — A call without a payload ([null] or [undefined]) fails at the
    destructuring: the caller receives the generic INTERNAL error, not
    INVALID_ARGUMENT, the TypeError is printed, the provider is not called
    and nothing is written. *)
Theorem missing_payload_is_internal sv data context w :
  nullish data = true ->
  askFollowup sv data context w = (with_printed TypeError w, Throw generic_failure).
Proof. destruct data; intros H; try discriminate; reflexivity. Qed.

Lemma missing_payload_is_internal_witness :
  askFollowup answering VNull signed_in fresh =
    (with_printed TypeError fresh, Throw generic_failure).
Proof. apply (missing_payload_is_internal answering VNull signed_in fresh). reflexivity. Defined.

(** X2 — A question that is truthy but not a string (a non-zero number,
    [true], an array, an object) has no [trim] method: the caller receives
    the generic INTERNAL error rather than a validation error, and neither
    the provider nor the store is reached. *)
Theorem non_string_question_is_internal sv data context w qv :
  get data (js "question") = Normal qv ->
  truthy qv = true ->
  (forall s, qv <> VStr s) ->
  askFollowup sv data context w = (with_printed TypeError w, Throw generic_failure).
Proof.
  intros Hq Ht Hs. destruct (destructure_question _ Hq) as (aid & ac & Hd).
  assert (Hv : validate qv = Throw TypeError).
  { unfold validate. rewrite Ht. destruct qv; try reflexivity.
    now elim (Hs s). }
  now rewrite (askFollowup_validation_throws sv data context w Hd Hv).
Qed.

Lemma non_string_question_is_internal_witness :
  askFollowup answering (payload (VNum (js "42")) (article VUndefined))
    signed_in fresh =
    (with_printed TypeError fresh, Throw generic_failure).
Proof.
  apply (non_string_question_is_internal answering
           (payload (VNum (js "42")) (article VUndefined)) signed_in fresh
           (VNum (js "42"))).
  - reflexivity.
  - reflexivity.
  - intros s. discriminate.
Defined.

(** X3 — The two validation errors are raised for nothing else: the caller
    receives [Question is required] exactly when the payload can be read
    and its question is blank, and [Question too long (max 500 characters)]
    exactly when the question is a string that does not trim to nothing
    and has more than 500 code units. *)
Theorem validation_errors_exactly sv data context w :
  (snd (askFollowup sv data context w) = Throw question_required <->
   exists qv, get data (js "question") = Normal qv /\ blank qv) /\
  (snd (askFollowup sv data context w) = Throw question_too_long <->
   exists s, get data (js "question") = Normal (VStr s) /\
             trim s <> [] /\ 500 < length s).
Proof.
  split; split.
  - intros H. destruct (thrown_classified sv data context w H)
      as [(aid & qv & ac & Hd & Hv & _)|E]; [|discriminate].
    exists qv. split; [apply (destructure_get data aid qv ac); auto|].
    unfold validate in Hv. unfold blank.
    destruct (truthy qv) eqn:T; [|now left]. right. simpl in Hv.
    destruct qv; try discriminate. exists s. split; [reflexivity|].
    destruct (length (trim s) =? 0)%nat eqn:E; [now apply length_zero_nil|].
    destruct (500 <? length s)%nat; discriminate.
  - intros (qv & Hq & Hb).
    destruct (destructure_question _ Hq) as (aid & ac & Hd).
    now rewrite (askFollowup_validation_throws sv data context w Hd
                   (validate_blank Hb)).
  - intros H. destruct (thrown_classified sv data context w H)
      as [(aid & qv & ac & Hd & Hv & _)|E]; [|discriminate].
    unfold validate in Hv.
    destruct (truthy qv) eqn:T; [|discriminate]. simpl in Hv.
    destruct qv; try discriminate. exists s.
    split; [apply (destructure_get data aid (VStr s) ac); auto|].
    destruct (length (trim s) =? 0)%nat eqn:E; [discriminate|].
    destruct (500 <? length s)%nat eqn:L; [|discriminate].
    split; [|now apply Nat.ltb_lt].
    intros Hn. rewrite Hn in E. discriminate.
  - intros (s & Hq & Hn & Hl).
    destruct (destructure_question _ Hq) as (aid & ac & Hd).
    now rewrite (askFollowup_validation_throws sv data context w Hd
                   (validate_too_long s Hn Hl)).
Qed.

Lemma validation_errors_exactly_witness :
  snd (askFollowup answering (payload (VStr spaces) (article VUndefined))
         signed_in fresh) = Throw question_required.
Proof.
  apply (proj1 (validation_errors_exactly answering
                  (payload (VStr spaces) (article VUndefined)) signed_in fresh)).
  exists (VStr spaces). split; [reflexivity|].
  right. exists spaces. split; [reflexivity | vm_compute; reflexivity].
Defined.

(** *** Article contexts the template cannot render *)

(** X4 — [?.] protects [bullets] against [undefined] and [null] only.  A
    [bullets] value of any other kind that is not an array (a string, a
    number, a boolean, even [false], or an object) has no [map] method:
    when the question is valid the caller receives the generic INTERNAL
    error and the provider is not called. *)
Theorem bullets_must_be_an_array sv data context w aid qv ac q bullets :
  destructure data = Normal (aid, qv, ac) ->
  validate qv = Normal q ->
  get ac (js "bullets") = Normal bullets ->
  nullish bullets = false ->
  (forall bs, bullets <> VArr bs) ->
  askFollowup sv data context w = (with_printed TypeError w, Throw generic_failure).
Proof.
  intros Hd Hv Hb Hn Ha.
  assert (Hk : key_points ac = Throw TypeError).
  { unfold key_points. rewrite Hb. simpl.
    destruct bullets; try discriminate; try reflexivity. now elim (Ha elems). }
  destruct (key_points_throw_userPrompt ac q _ Hk) as [e He].
  exact (askFollowup_prompt_throws sv data context w aid qv ac q e Hd Hv He).
Qed.

Lemma bullets_must_be_an_array_witness :
  askFollowup answering (payload (VStr hello) (article (VBool false)))
    signed_in fresh =
    (with_printed TypeError fresh, Throw generic_failure).
Proof.
  apply (bullets_must_be_an_array answering
           (payload (VStr hello) (article (VBool false))) signed_in fresh
           VUndefined (VStr hello) (article (VBool false)) hello (VBool false)).
  - reflexivity.
  - vm_compute. reflexivity.
  - reflexivity.
  - reflexivity.
  - intros bs. discriminate.
Defined.

Lemma map_bullets_nullish bs b :
  In b bs -> nullish b = true -> exists e, map_bullets bs = Throw e.
Proof.
  induction bs as [|x bs IH]; intros Hin Hn; [contradiction|].
  simpl. unfold cbind.
  destruct (bullet_line x) as [l|e] eqn:Hx; [|eauto].
  destruct Hin as [->|Hin].
  - destruct b; discriminate.
  - destruct (IH Hin Hn) as [e ->]. eauto.
Qed.

(** X5 — A [null] entry anywhere in the [bullets] array makes [b.text]
    throw: the whole request fails with the generic INTERNAL error, the
    provider is not called, whatever the other bullets are. *)
Theorem null_bullet_is_internal sv data context w aid qv ac q bs b :
  destructure data = Normal (aid, qv, ac) ->
  validate qv = Normal q ->
  get ac (js "bullets") = Normal (VArr bs) ->
  In b bs ->
  nullish b = true ->
  askFollowup sv data context w = (with_printed TypeError w, Throw generic_failure).
Proof.
  intros Hd Hv Hb Hin Hn.
  destruct (map_bullets_nullish bs b Hin Hn) as [e0 He0].
  assert (Hk : exists e, key_points ac = Throw e).
  { unfold key_points. rewrite Hb. simpl. rewrite He0. simpl. eauto. }
  destruct Hk as [e1 Hk].
  destruct (key_points_throw_userPrompt ac q _ Hk) as [e He].
  exact (askFollowup_prompt_throws sv data context w aid qv ac q e Hd Hv He).
Qed.

Lemma null_bullet_is_internal_witness :
  askFollowup answering
    (payload (VStr hello)
       (article (VArr [text_bullet (js "Production up 12%"); VNull])))
    signed_in fresh =
    (with_printed TypeError fresh, Throw generic_failure).
Proof.
  apply (null_bullet_is_internal answering
           (payload (VStr hello)
              (article (VArr [text_bullet (js "Production up 12%"); VNull])))
           signed_in fresh
           VUndefined (VStr hello)
           (article (VArr [text_bullet (js "Production up 12%"); VNull]))
           hello [text_bullet (js "Production up 12%"); VNull] VNull).
  - reflexivity.
  - vm_compute. reflexivity.
  - reflexivity.
  - right. left. reflexivity.
  - reflexivity.
Defined.

Lemma map_bullets_lines bs ls :
  map_bullets bs = Normal ls ->
  length ls = length bs /\
  Forall (fun l => exists t, l = js "- " ++ t) ls.
Proof.
  revert ls. induction bs as [|b bs IH]; intros ls; simpl.
  - intros [= <-]. split; [reflexivity|constructor].
  - unfold cbind. destruct (bullet_line b) as [l|e] eqn:Hb; [|discriminate].
    destruct (map_bullets bs) as [ls'|e]; [|discriminate].
    intros [= <-]. destruct (IH ls' eq_refl) as [Hl Hf].
    split; [simpl; now rewrite Hl|]. constructor; [|exact Hf].
    unfold bullet_line, cbind in Hb.
    destruct (get b (js "text")); [|discriminate].
    destruct (ToString a); [|discriminate].
    injection Hb as <-. eauto.
Qed.

(** X6 — The placeholder stands for "no bullets" and for nothing else:
    whenever the key points render, they are [No bullet points available]
    exactly when [bullets] is absent, [null] or an empty array.  A
    non-empty array always renders as its own lines, one per bullet, each
    starting with [- ]. *)
Theorem placeholder_exactly_without_bullets ac points :
  key_points ac = Normal points ->
  (points = placeholder <->
   exists v, get ac (js "bullets") = Normal v /\
             (nullish v = true \/ v = VArr [])) /\
  (forall b bs, get ac (js "bullets") = Normal (VArr (b :: bs)) ->
     exists ls, map_bullets (b :: bs) = Normal ls /\
                points = join nl ls /\
                length ls = S (length bs) /\
                Forall (fun l => exists t, l = js "- " ++ t) ls).
Proof.
  unfold key_points, cbind.
  destruct (get ac (js "bullets")) as [v|e] eqn:Hg; [|discriminate].
  destruct v; try discriminate.
  - intros [= <-]. split.
    + split; [intros _; exists VUndefined; auto | reflexivity].
    + intros b bs [=].
  - intros [= <-]. split.
    + split; [intros _; exists VNull; auto | reflexivity].
    + intros b bs [=].
  - destruct (map_bullets elems) as [ls|e] eqn:Hm; [|discriminate].
    intros [= <-]. destruct (map_bullets_lines elems ls Hm) as [Hl Hf].
    destruct elems as [|b bs].
    + simpl in Hm. injection Hm as <-. split.
      * split; [intros _; exists (VArr []); auto | reflexivity].
      * intros b bs [=].
    + destruct ls as [|l ls]; [discriminate|].
      inversion Hf as [|? ? [t ->] Hf']; subst.
      match goal with
      | |- context [jsstring_eqb ?j []] => set (joined := j)
      end.
      assert (Hne : joined <> []) by (unfold joined; destruct ls; discriminate).
      assert (Hnp : joined <> placeholder)
        by (unfold joined; destruct ls; discriminate).
      destruct (jsstring_eqb joined []) eqn:E;
        [apply jsstring_eqb_eq in E; contradiction|].
      split.
      * split; [intros Hp; exact (False_ind _ (Hnp Hp))|].
        intros (v & [= <-] & [Hn|Hn]); discriminate.
      * intros b' bs' [= <- <-]. exists ((45%N :: 32%N :: t) :: ls).
        repeat split; auto.
Qed.

Lemma placeholder_exactly_without_bullets_witness :
  placeholder = placeholder <->
  exists v, get (article (VArr [])) (js "bullets") = Normal v /\
            (nullish v = true \/ v = VArr []).
Proof.
  apply (placeholder_exactly_without_bullets (article (VArr [])) placeholder).
  reflexivity.
Defined.

Lemma get_propertyless v key : propertyless v -> get v key = Normal VUndefined.
Proof. destruct v; simpl; intros H; try contradiction; reflexivity. Qed.

(** X7 — Only a [null] or [undefined] article context makes the template
    throw at its property reads.  A string, number, boolean or array in
    its place reads as an object without properties: the prompt is the one
    of the empty object, with [undefined] for the three fields and the
    placeholder for the bullets. *)
Theorem propertyless_context_reads_as_empty ac q :
  propertyless ac ->
  userPrompt ac q = userPrompt (VObj []) q /\
  userPrompt ac q =
    Normal (Request.spec_userPrompt
              {| Request.headline := None; Request.source := None;
                 Request.summary := None; Request.bullets := None |} q).
Proof.
  intros H.
  assert (E : userPrompt ac q = userPrompt (VObj []) q).
  { unfold userPrompt, key_points. now rewrite !(get_propertyless ac _ H). }
  split; [exact E|]. rewrite E. reflexivity.
Qed.

Lemma propertyless_context_reads_as_empty_witness :
  userPrompt (VStr (js "see above")) hello = userPrompt (VObj []) hello.
Proof.
  apply (propertyless_context_reads_as_empty (VStr (js "see above")) hello).
  exact I.
Defined.

(** *** Provider answers the handler cannot use *)

(** X8 — The handler reads the first content block only and takes its
    text for granted.  When the provider's message has no content block,
    or its first block carries no text (whatever the later blocks hold),
    the request has been sent, nothing is written to the collection, and
    the caller receives the generic INTERNAL error. *)
Theorem unusable_answer_is_internal sv data context w aid qv ac q p m :
  destructure data = Normal (aid, qv, ac) ->
  validate qv = Normal q ->
  userPrompt ac q = Normal p ->
  messages_create sv (create_params p) = inl m ->
  (blocks m = [] \/ exists b rest, blocks m = b :: rest /\ text b = None) ->
  askFollowup sv data context w =
    (with_printed TypeError (with_request (create_params p) w),
     Throw generic_failure) /\
  ai_interactions (fst (askFollowup sv data context w)) = ai_interactions w.
Proof.
  intros Hd Hv Hp Hm Hb.
  rewrite askFollowup_stages, Hd, Hv, Hp. cbv zeta. rewrite Hm.
  unfold first_text.
  destruct Hb as [->|(b & rest & -> & Ht)]; [split; reflexivity|].
  rewrite Ht. split; reflexivity.
Qed.

Lemma unusable_answer_is_internal_witness :
  askFollowup tool_block_first
    (Request.encode (asking why (Some two_bullets))) signed_in fresh =
    (with_printed TypeError
       (with_request
          (create_params (Request.spec_userPrompt two_bullets why)) fresh),
     Throw generic_failure) /\
  ai_interactions
    (fst (askFollowup tool_block_first
            (Request.encode (asking why (Some two_bullets))) signed_in fresh)) =
    ai_interactions fresh.
Proof.
  apply (unusable_answer_is_internal tool_block_first
           (Request.encode (asking why (Some two_bullets))) signed_in fresh
           (VStr (js "article-1")) (VStr why) (Request.encode_context two_bullets)
           why (Request.spec_userPrompt two_bullets why)
           {| blocks := [ {| text := None |}; {| text := Some (js "late") |} ] |}).
  - reflexivity.
  - vm_compute. reflexivity.
  - vm_compute. reflexivity.
  - reflexivity.
  - right. exists {| text := None |}, [ {| text := Some (js "late") |} ].
    split; reflexivity.
Defined.

(** *** What an invocation does to the world *)

(** X9 — The collection grows by exactly one record when the caller gets
    an answer, and not at all when the caller gets an error, of whatever
    kind and at whatever stage.  Records that were there are never changed
    or removed. *)
Theorem collection_grows_with_answers_only sv data context w :
  match snd (askFollowup sv data context w) with
  | Normal r =>
      exists doc,
        ai_interactions (fst (askFollowup sv data context w)) =
          ai_interactions w ++ [doc] /\
        add sv doc = inl tt
  | Throw _ =>
      ai_interactions (fst (askFollowup sv data context w)) = ai_interactions w
  end.
Proof.
  destruct (run_cases sv data context w)
    as [(cause & -> & _) | (aid & qv & ac & q & p & _ & _ & _ &
                            [(cause & -> & _) | (t & Ha & ->)])].
  - destruct (catch_clause_throws cause w) as [e He]. rewrite He.
    apply catch_clause_world.
  - reflexivity.
  - cbn [snd fst]. exists (interaction aid qv (length t) context).
    split; [reflexivity|exact Ha].
Qed.

(** X10 — An invocation calls the provider at most once, and only ever
    with the fixed model, a budget of 1024 tokens, the fixed system prompt
    and a single user message; earlier entries of the trace are kept. *)
Theorem at_most_one_provider_call sv data context w :
  exists calls,
    sent (fst (askFollowup sv data context w)) = sent w ++ calls /\
    length calls <= 1 /\
    Forall well_formed_call calls.
Proof.
  assert (W : forall p, well_formed_call (create_params p))
    by (intros p; repeat split; eexists; reflexivity).
  destruct (run_cases sv data context w)
    as [(cause & -> & _) | (aid & qv & ac & q & p & _ & _ & _ &
                            [(cause & -> & _) | (t & Ha & ->)])].
  - exists []. rewrite (proj1 (proj2 (catch_clause_world cause w))).
    rewrite app_nil_r. repeat split; auto.
  - exists [create_params p]. repeat split; auto.
  - exists [create_params p]. repeat split; auto.
Qed.

(** X11 — The provider never sees a question that failed validation: if
    an invocation sent a request, its single user message is the prompt
    composed for a question that is a string, does not trim to nothing and
    has at most 500 code units, and that question stands in the prompt as
    it was sent. *)
Theorem provider_sees_validated_questions_only sv data context w p :
  sent (fst (askFollowup sv data context w)) = sent w ++ [p] ->
  exists q ac prompt pre,
    get data (js "question") = Normal (VStr q) /\
    trim q <> [] /\ length q <= 500 /\
    get data (js "articleContext") = Normal ac /\
    userPrompt ac q = Normal prompt /\
    p = create_params prompt /\
    prompt = pre ++ js "User Question: " ++ q ++ nl ++ nl ++ closing_instruction.
Proof.
  intros H.
  assert (Hsplit : forall ac q prompt, userPrompt ac q = Normal prompt ->
            exists pre, prompt =
              pre ++ js "User Question: " ++ q ++ nl ++ nl ++ closing_instruction).
  { intros ac q prompt Hp. unfold userPrompt, cbind in Hp.
    destruct (get ac (js "headline")) as [h|]; [|discriminate].
    destruct (ToString h) as [headline|]; [|discriminate].
    destruct (get ac (js "source")) as [s|]; [|discriminate].
    destruct (ToString s) as [source|]; [|discriminate].
    destruct (get ac (js "summary")) as [m|]; [|discriminate].
    destruct (ToString m) as [summary|]; [|discriminate].
    destruct (key_points ac) as [points|]; [|discriminate].
    injection Hp as <-.
    exists (js "Article Context:" ++ nl ++
            js "Headline: " ++ headline ++ nl ++
            js "Source: " ++ source ++ nl ++
            js "Summary: " ++ summary ++ nl ++
            js "Key Points:" ++ nl ++ points ++ nl ++ nl).
    repeat rewrite <- app_assoc. reflexivity. }
  destruct (run_cases sv data context w)
    as [(cause & E & _) | (aid & qv & ac & q & prompt & Hd & Hv & Hp & E)].
  - rewrite E, (proj1 (proj2 (catch_clause_world cause w))) in H.
    rewrite <- (app_nil_r (sent w)) in H at 1.
    apply app_inv_head in H. discriminate.
  - assert (Hs : sent (fst (askFollowup sv data context w)) =
                 sent w ++ [create_params prompt])
      by (destruct E as [(cause & -> & _) | (t & _ & ->)]; reflexivity).
    rewrite Hs in H. apply app_inv_head in H. injection H as <-.
    apply validate_Normal in Hv. destruct Hv as (-> & Hn & Hl).
    apply destructure_get in Hd. destruct Hd as (_ & Hq & Hc).
    destruct (Hsplit ac q prompt Hp) as [pre Hpre].
    exists q, ac, prompt, pre. repeat split; auto.
Qed.

Lemma provider_sees_validated_questions_only_witness :
  exists q ac prompt pre,
    get (Request.encode (asking why (Some two_bullets))) (js "question") =
      Normal (VStr q) /\
    trim q <> [] /\ length q <= 500 /\
    get (Request.encode (asking why (Some two_bullets))) (js "articleContext") =
      Normal ac /\
    userPrompt ac q = Normal prompt /\
    create_params (Request.spec_userPrompt two_bullets why) =
      create_params prompt /\
    prompt = pre ++ js "User Question: " ++ q ++ nl ++ nl ++ closing_instruction.
Proof.
  apply (provider_sees_validated_questions_only provider_down
           (Request.encode (asking why (Some two_bullets))) signed_in fresh
           (create_params (Request.spec_userPrompt two_bullets why))).
  vm_compute. reflexivity.
Defined.

(** X12 — [console.error] prints exactly once when the invocation ends in
    an error and not at all when it returns an answer.  What is printed is
    the error as it was thrown: the validation error itself, or the cause
    that the caller's generic INTERNAL error stands for, which is never an
    [HttpsError]. *)
Theorem console_has_the_cause sv data context w :
  match snd (askFollowup sv data context w) with
  | Normal _ =>
      console_error (fst (askFollowup sv data context w)) = console_error w
  | Throw e =>
      exists cause,
        console_error (fst (askFollowup sv data context w)) =
          console_error w ++ [cause] /\
        (cause = e /\ (e = question_required \/ e = question_too_long) \/
         e = generic_failure /\ forall c m, cause <> HttpsError c m)
  end.
Proof.
  destruct (run_cases sv data context w)
    as [(cause & -> & Hc) | (aid & qv & ac & q & p & _ & _ & _ &
                             [(cause & -> & Hc) | (t & Ha & ->)])].
  - destruct Hc as [ -> | [ -> | -> ] ]; cbn [catch_clause snd fst];
      eexists; (split; [reflexivity|]).
    + right. split; [reflexivity|discriminate].
    + left. auto.
    + left. auto.
  - cbn [snd fst]. exists cause. split; [reflexivity|]. right. auto.
  - reflexivity.
Qed.

(** X13 — What is sent to the provider is decided by the question and the
    article context alone: neither the caller's identity, nor the
    [articleId], nor the behaviour of the provider or of the store in this
    invocation changes the provider trace. *)
Theorem provider_trace_from_question_and_context
    sv sv' data data' context context' w aid aid' qv ac :
  destructure data = Normal (aid, qv, ac) ->
  destructure data' = Normal (aid', qv, ac) ->
  sent (fst (askFollowup sv data context w)) =
  sent (fst (askFollowup sv' data' context' w)).
Proof.
  intros Hd Hd'. rewrite !askFollowup_stages, Hd, Hd'.
  destruct (validate qv) as [q|e];
    [|now rewrite !(proj1 (proj2 (catch_clause_world e w)))].
  destruct (userPrompt ac q) as [p|e];
    [|now rewrite !(proj1 (proj2 (catch_clause_world e w)))].
  cbv zeta.
  assert (R : forall s a c,
             sent (fst match messages_create s (create_params p) with
                       | inl m =>
                           match first_text m with
                           | Normal resp =>
                               match length_of resp with
                               | Normal len =>
                                   match add s (interaction a qv len c) with
                                   | inl _ =>
                                       (with_document (interaction a qv len c)
                                          (with_request (create_params p) w),
                                        Normal {| success := true;
                                                  response := resp |})
                                   | inr detail =>
                                       catch_clause (FirestoreError detail)
                                         (with_request (create_params p) w)
                                   end
                               | Throw e =>
                                   catch_clause e
                                     (with_request (create_params p) w)
                               end
                           | Throw e =>
                               catch_clause e (with_request (create_params p) w)
                           end
                       | inr detail =>
                           catch_clause (ProviderError detail)
                             (with_request (create_params p) w)
                       end) = sent w ++ [create_params p]).
  { intros s a c.
    destruct (messages_create s (create_params p)) as [m|d]; [|reflexivity].
    destruct (first_text m) as [[t|]|e]; cbn [length_of];
      try (destruct e; reflexivity); try reflexivity.
    destruct (add s _); reflexivity. }
  now rewrite !R.
Qed.

Lemma provider_trace_from_question_and_context_witness :
  sent (fst (askFollowup answering
               (Request.encode (asking why (Some two_bullets)))
               signed_in fresh)) =
  sent (fst (askFollowup provider_down
               (Request.encode
                  {| Request.articleId := None;
                     Request.question := Some why;
                     Request.articleContext := Some two_bullets |})
               not_signed_in fresh)).
Proof.
  apply (provider_trace_from_question_and_context answering provider_down
           (Request.encode (asking why (Some two_bullets)))
           (Request.encode
              {| Request.articleId := None;
                 Request.question := Some why;
                 Request.articleContext := Some two_bullets |})
           signed_in not_signed_in fresh
           (VStr (js "article-1")) VUndefined (VStr why)
           (Request.encode_context two_bullets)).
  - reflexivity.
  - reflexivity.
Defined.

(** *** Records *)

Lemma store_after sv data context w :
  (exists e,
      snd (askFollowup sv data context w) = Throw e /\
      ai_interactions (fst (askFollowup sv data context w)) = ai_interactions w) \/
  (exists r aid qv len,
      snd (askFollowup sv data context w) = Normal r /\
      ai_interactions (fst (askFollowup sv data context w)) =
        ai_interactions w ++ [interaction aid qv len context]).
Proof.
  destruct (run_cases sv data context w)
    as [(cause & -> & _) | (aid & qv & ac & q & p & _ & _ & _ &
                            [(cause & -> & _) | (t & Ha & ->)])].
  - left. destruct (catch_clause_throws cause w) as [e He]. exists e.
    split; [exact He | apply catch_clause_world].
  - left. eexists. split; reflexivity.
  - right. do 4 eexists. split; reflexivity.
Qed.

Lemma userId_of_nonempty context : userId_of context <> [].
Proof.
  unfold userId_of. destruct (auth context) as [a|]; [|discriminate].
  destruct (uid a); simpl; discriminate.
Qed.

(** X14 — Every record the handler writes names a user: its [userId] is
    never empty.  It is the caller's uid when that is a non-empty string,
    and [anonymous] both for a caller without auth context and for an auth
    context whose uid is the empty string; its [timestamp] is always the
    server-timestamp sentinel. *)
Theorem written_records_name_a_user sv data context w doc :
  ai_interactions (fst (askFollowup sv data context w)) =
    ai_interactions w ++ [doc] ->
  userId doc <> [] /\
  timestamp doc = serverTimestamp /\
  (forall a, auth context = Some a -> uid a <> [] -> userId doc = uid a) /\
  (auth context = None \/ (exists a, auth context = Some a /\ uid a = []) ->
   userId doc = js "anonymous").
Proof.
  intros H.
  destruct (store_after sv data context w)
    as [(e & _ & E) | (r & aid & qv & len & _ & E)]; rewrite E in H.
  - rewrite <- (app_nil_r (ai_interactions w)) in H at 1.
    apply app_inv_head in H. discriminate.
  - apply app_inv_head in H. injection H as <-. cbn [userId timestamp interaction].
    split; [apply userId_of_nonempty|]. split; [reflexivity|].
    unfold userId_of. split.
    + intros a -> Hu. destruct (uid a); [now elim Hu|reflexivity].
    + intros [-> | (a & -> & ->)]; reflexivity.
Qed.

Lemma written_records_name_a_user_witness :
  userId (interaction (VStr (js "article-1")) (VStr why) 11 empty_uid) <> [] /\
  timestamp (interaction (VStr (js "article-1")) (VStr why) 11 empty_uid) =
    serverTimestamp /\
  (forall a, auth empty_uid = Some a -> uid a <> [] ->
     userId (interaction (VStr (js "article-1")) (VStr why) 11 empty_uid) = uid a) /\
  (auth empty_uid = None \/ (exists a, auth empty_uid = Some a /\ uid a = []) ->
   userId (interaction (VStr (js "article-1")) (VStr why) 11 empty_uid) =
     js "anonymous").
Proof.
  apply (written_records_name_a_user answering
           (Request.encode (asking why (Some two_bullets))) empty_uid fresh
           (interaction (VStr (js "article-1")) (VStr why) 11 empty_uid)).
  vm_compute. reflexivity.
Defined.

(** *** Sequences of invocations *)

Lemma answers_app outs outs' : answers (outs ++ outs') = answers outs + answers outs'.
Proof.
  induction outs as [|[r|e] outs IH]; simpl; auto.
Qed.

(** X15 — Over any sequence of invocations, whatever the payloads, callers
    and service behaviours, the collection ends as the old records followed
    by exactly one new record per answer returned: errors leave no trace
    in it, and nothing that was there is changed or removed. *)
Theorem collection_counts_answers calls w :
  length (snd (serve calls w)) = length calls /\
  exists docs,
    ai_interactions (fst (serve calls w)) = ai_interactions w ++ docs /\
    length docs = answers (snd (serve calls w)).
Proof.
  revert w. induction calls as [|c rest IH]; intros w.
  - split; [reflexivity|]. exists []. now rewrite app_nil_r.
  - destruct (serve_cons c rest w) as [-> ->].
    set (run := askFollowup (services c) (data c) (context c) w).
    destruct (IH (fst run)) as (Hl & docs & Hd & Hn).
    split; [simpl; now rewrite Hl|].
    destruct (store_after (services c) (data c) (context c) w)
      as [(e & Ho & E) | (r & aid & qv & len & Ho & E)];
      fold run in Ho, E; rewrite Hd, E, Ho.
    + exists docs. split; [reflexivity|exact Hn].
    + exists (interaction aid qv len (context c) :: docs).
      split; [now rewrite <- app_assoc|]. simpl. now rewrite Hn.
Qed.

Lemma serve_app calls calls' w :
  fst (serve (calls ++ calls') w) = fst (serve calls' (fst (serve calls w))) /\
  snd (serve (calls ++ calls') w) =
    snd (serve calls w) ++ snd (serve calls' (fst (serve calls w))).
Proof.
  revert w. induction calls as [|c rest IH]; intros w; [split; reflexivity|].
  change ((c :: rest) ++ calls') with (c :: (rest ++ calls')).
  destruct (serve_cons c (rest ++ calls') w) as [-> ->].
  destruct (serve_cons c rest w) as [-> ->].
  destruct (IH (fst (askFollowup (services c) (data c) (context c) w)))
    as [-> ->].
  split; reflexivity.
Qed.

End FollowupExtra.

(* ================================================================== *)
(** ** Further behaviour of the strings, the health check and the
    initialisation *)

Module StringExtra.
Import JS JSFacts.
Unset Implicit Arguments.

Lemma trimStart_split s :
  exists pre, s = pre ++ trimStart s /\ forallb is_trim_space pre = true.
Proof.
  induction s as [|c s (pre & E & Hp)]; [exists []; auto|].
  simpl. destruct (is_trim_space c) eqn:Hc.
  - exists (c :: pre). split; [simpl; now rewrite <- E | simpl; now rewrite Hc].
  - exists []. auto.
Qed.

Lemma trimStart_head s c r : trimStart s = c :: r -> is_trim_space c = false.
Proof.
  induction s as [|x s IH]; simpl; [discriminate|].
  destruct (is_trim_space x) eqn:Hx; [exact IH|].
  now intros [= <- _].
Qed.

Lemma trimEnd_split s :
  exists post, s = trimEnd s ++ post /\ forallb is_trim_space post = true.
Proof.
  unfold trimEnd. destruct (trimStart_split (rev s)) as (pre & E & Hp).
  exists (rev pre). split.
  - rewrite <- rev_app_distr, <- E. now rewrite rev_involutive.
  - now rewrite forallb_rev.
Qed.

Lemma trimEnd_last s r c : trimEnd s = r ++ [c] -> is_trim_space c = false.
Proof.
  unfold trimEnd. intros H. apply (f_equal (@rev N)) in H.
  rewrite rev_involutive, rev_app_distr in H. simpl in H.
  exact (trimStart_head _ _ _ H).
Qed.

(** X16 — [trim], as the validation uses it, only removes white space from
    the two ends: the string is some white space, then the trimmed string,
    then some white space, and the trimmed string neither starts nor ends
    with a white-space or line-terminator code unit.  Trimming twice
    changes nothing more. *)
Theorem trim_strips_both_ends s :
  (exists pre post,
      s = pre ++ trim s ++ post /\
      forallb is_trim_space pre = true /\
      forallb is_trim_space post = true) /\
  (forall c r, trim s = c :: r -> is_trim_space c = false) /\
  (forall r c, trim s = r ++ [c] -> is_trim_space c = false) /\
  trim (trim s) = trim s.
Proof.
  assert (Hsplit : exists pre post,
             s = pre ++ trim s ++ post /\
             forallb is_trim_space pre = true /\
             forallb is_trim_space post = true).
  { unfold trim. destruct (trimStart_split s) as (pre & E & Hp).
    destruct (trimEnd_split (trimStart s)) as (post & E' & Hq).
    exists pre, post. rewrite <- E', <- E. auto. }
  assert (Hhead : forall c r, trim s = c :: r -> is_trim_space c = false).
  { unfold trim. intros c r H.
    destruct (trimEnd_split (trimStart s)) as (post & E' & _).
    rewrite H in E'. simpl in E'. exact (trimStart_head _ _ _ E'). }
  assert (Hlast : forall r c, trim s = r ++ [c] -> is_trim_space c = false).
  { unfold trim. intros r c H. exact (trimEnd_last _ _ _ H). }
  repeat split; auto.
  assert (S1 : trimStart (trim s) = trim s).
  { destruct (trim s) as [|c r] eqn:E; [reflexivity|].
    simpl. now rewrite (Hhead c r eq_refl). }
  unfold trim at 1. rewrite S1. unfold trimEnd.
  destruct (rev (trim s)) as [|c r] eqn:E; [|].
  - simpl. apply (f_equal (@rev N)) in E. rewrite rev_involutive in E.
    now rewrite E.
  - assert (Hc : is_trim_space c = false).
    { apply (Hlast (rev r) c). apply (f_equal (@rev N)) in E.
      rewrite rev_involutive in E. exact E. }
    simpl. rewrite Hc. rewrite <- E. apply rev_involutive.
Qed.

Lemma trim_strips_both_ends_witness :
  is_trim_space 104 = false.
Proof.
  apply (proj1 (proj2 (trim_strips_both_ends (js "  hi ")))
           104%N [105%N]).
  reflexivity.
Defined.

End StringExtra.

Module HealthExtra.
Import JS Health HealthFacts Probe.
Local Open Scope Z_scope.
Unset Implicit Arguments.

(** X17 — Health checks at different milliseconds carry different
    timestamps: the payload determines the clock reading, whatever the two
    requests were. *)
Theorem timestamps_tell_instants_apart
    (Request Request' : Type) (now now' : Z) (req : Request) (req' : Request') :
  - maxTime <= now <= maxTime ->
  - maxTime <= now' <= maxTime ->
  healthCheck now req = healthCheck now' req' ->
  now = now'.
Proof.
  intros H H' E. unfold healthCheck in E.
  destruct (toISOString_parses now H) as (ts & T & P).
  destruct (toISOString_parses now' H') as (ts' & T' & P').
  rewrite T, T' in E. injection E as <-. rewrite P in P'. now injection P'.
Qed.

Lemma timestamps_tell_instants_apart_witness : 1700000000000 = 1700000000000.
Proof.
  apply (timestamps_tell_instants_apart unit bool
           1700000000000 1700000000000 tt true).
  - unfold maxTime. lia.
  - unfold maxTime. lia.
  - reflexivity.
Defined.

Lemma DayFromYear_mono a b : a <= b -> DayFromYear a <= DayFromYear b.
Proof. unfold DayFromYear. intros H. divmod. Qed.

(** The years 0 to 9999 are the time values from -62167219200000 up to,
    not including, 253402300800000. *)
Lemma four_digit_years t :
  -62167219200000 <= t < 253402300800000 ->
  0 <= YearFromDay (Day t) <= 9999.
Proof.
  intros H.
  assert (Hd : -719528 <= Day t < 2932897)
    by (unfold Day, msPerDay; divmod).
  pose proof (year_bracket (Day t)) as [B1 B2].
  set (y := YearFromDay (Day t)) in *. clearbody y.
  assert (D0 : DayFromYear 0 = -719528) by reflexivity.
  assert (D1 : DayFromYear 10000 = 2932897) by reflexivity.
  split.
  - destruct (Z_lt_le_dec y 0) as [L|L]; [|exact L].
    pose proof (DayFromYear_mono (y + 1) 0 ltac:(lia)). lia.
  - destruct (Z_lt_le_dec 9999 y) as [L|L]; [|exact L].
    pose proof (DayFromYear_mono 10000 y ltac:(lia)). lia.
Qed.

Lemma digit_is_digit n : is_digit (digit n) = true.
Proof.
  unfold is_digit. pose proof (digit_range n) as [H1 H2].
  apply N.leb_le in H1, H2. now rewrite H1, H2.
Qed.

(** X18 — From the year 0 to the year 9999 of the clock, the timestamp has
    the fixed width of 24 code units, [YYYY-MM-DDTHH:mm:ss.sssZ]: digits
    everywhere but for the two hyphens, the [T], the two colons, the dot and
    the final [Z], each at its fixed place. *)
Theorem timestamp_has_fixed_width (Request : Type) (now : Z) (req : Request) :
  -62167219200000 <= now < 253402300800000 ->
  exists y1 y2 y3 y4 m1 m2 d1 d2 h1 h2 i1 i2 s1 s2 f1 f2 f3,
    healthCheck now req =
      Some {| status := js "ok";
              timestamp :=
                [y1; y2; y3; y4; 45; m1; m2; 45; d1; d2; 84;
                 h1; h2; 58; i1; i2; 58; s1; s2; 46; f1; f2; f3; 90]%N |} /\
    forallb is_digit
      [y1; y2; y3; y4; m1; m2; d1; d2; h1; h2; i1; i2; s1; s2; f1; f2; f3] = true.
Proof.
  intros H. pose proof (four_digit_years now H) as Y.
  unfold healthCheck, toISOString.
  assert (A : (Z.abs now <=? maxTime) = true)
    by (apply Z.leb_le; unfold maxTime; lia).
  rewrite A. unfold civil_from_days, year_string.
  destruct Y as [Y0 Y1]. apply Z.leb_le in Y0, Y1. rewrite Y0, Y1.
  cbn [andb]. unfold pad4, pad3, pad2.
  change (js "-") with [45%N]. change (js "T") with [84%N].
  change (js ":") with [58%N]. change (js ".") with [46%N].
  change (js "Z") with [90%N]. cbn [app].
  do 17 eexists. split; [reflexivity|].
  cbn [forallb]. rewrite !digit_is_digit. reflexivity.
Qed.

Lemma timestamp_has_fixed_width_witness :
  exists y1 y2 y3 y4 m1 m2 d1 d2 h1 h2 i1 i2 s1 s2 f1 f2 f3,
    healthCheck 1700000000000 tt =
      Some {| status := js "ok";
              timestamp :=
                [y1; y2; y3; y4; 45; m1; m2; 45; d1; d2; 84;
                 h1; h2; 58; i1; i2; 58; s1; s2; 46; f1; f2; f3; 90]%N |} /\
    forallb is_digit
      [y1; y2; y3; y4; m1; m2; d1; d2; h1; h2; i1; i2; s1; s2; f1; f2; f3] = true.
Proof.
  apply (timestamp_has_fixed_width unit 1700000000000 tt). lia.
Defined.

End HealthExtra.

Module InitExtra.
Import JS JSFacts Init.
Unset Implicit Arguments.

(** X19 — Loading the module never throws a duplicate-app error, whatever
    apps exist: the guard calls [initializeApp] on an empty registry only.
    Afterwards the registry is not empty, apps that existed are untouched,
    and loading again changes nothing, whereas an unguarded second
    [initializeApp] would throw. *)
Theorem initialisation_is_guarded apps :
  exists apps',
    ensure_initialized apps = Some apps' /\
    apps' <> [] /\
    (apps <> [] -> apps' = apps) /\
    (apps = [] -> apps' = [default_app] /\ initializeApp apps' = None) /\
    ensure_initialized apps' = Some apps'.
Proof.
  destruct apps as [|a apps].
  - exists [default_app]. repeat split; try discriminate; try reflexivity.
    intros H. now elim H.
  - exists (a :: apps). repeat split; try discriminate; try reflexivity.
Qed.

Lemma initialisation_is_guarded_witness :
  exists apps',
    ensure_initialized [] = Some apps' /\
    apps' = [default_app] /\ initializeApp apps' = None.
Proof.
  destruct (initialisation_is_guarded []) as (apps' & E & _ & _ & H & _).
  exists apps'. split; [exact E|]. apply H. reflexivity.
Defined.

(** X20 — The API key comes from the environment when the variable holds
    a non-empty string, and then the configuration is not consulted.  An
    unset variable and an empty one are the same: the key is then
    [anthropic.api_key] of the configuration, and it is [undefined],
    without any error at load time, when the configuration has no
    [anthropic] section or that section has no [api_key]. *)
Theorem apiKey_resolution env props :
  (forall s config, s <> [] -> apiKey (Some s) config = Normal (VStr s)) /\
  apiKey (Some []) (VObj props) = apiKey None (VObj props) /\
  (exists key, apiKey None (VObj props) = Normal key) /\
  (own_property props (js "anthropic") = None ->
   apiKey env (VObj props) =
     Normal (match env with
             | Some (c :: s) => VStr (c :: s)
             | _ => VUndefined
             end)) /\
  (forall section,
      own_property props (js "anthropic") = Some (VObj section) ->
      apiKey None (VObj props) =
        Normal (match own_property section (js "api_key") with
                | Some key => key
                | None => VUndefined
                end)).
Proof.
  split; [|split; [|split; [|split]]].
  - intros s config Hs. unfold apiKey. destruct s; [now elim Hs|reflexivity].
  - reflexivity.
  - unfold apiKey. cbn [truthy get cbind].
    destruct (own_property props (js "anthropic")) as [v|];
      [|eexists; reflexivity].
    destruct v; try (eexists; reflexivity).
    cbn [cbind nullish get].
    destruct (own_property props0 (js "api_key")); eexists; reflexivity.
  - intros H. unfold apiKey.
    destruct env as [[|c s]|]; simpl; try reflexivity; now rewrite H.
  - intros section H. unfold apiKey. cbn [truthy get cbind].
    rewrite H. cbn [cbind nullish get].
    destruct (own_property section (js "api_key")); reflexivity.
Qed.

Lemma apiKey_resolution_witness :
  apiKey (Some (js "sk-env")) (VObj []) = Normal (VStr (js "sk-env")).
Proof.
  apply (proj1 (apiKey_resolution None []) (js "sk-env") (VObj [])).
  discriminate.
Defined.

End InitExtra.
